(** * The live-preview analysis reports of [live-fix/script.py] and
      [live-fix/script (1).py], and what their rendering loops print.

    Both files are straight-line Python modules: literal dictionaries and
    lists, and loops that [print] them.  The embedding keeps the dynamic
    shape of the data (a value is a string, a number, a list or a
    string-keyed dictionary), threads the output stream and Python's
    exceptions through a small monad, and follows the statements of the
    two modules in order. *)

From Stdlib Require Import String Ascii List ZArith Lia Bool DecimalString.
Import ListNotations.
Local Open Scope string_scope.

(** ** Strings

    A Python [str] is kept as the bytes of its UTF-8 encoding. *)

(** The line terminator [print] appends, also written ["\n"] in literals. *)
Definition nl : string := String (ascii_of_nat 10) EmptyString.

(** [s.replace(old, new)] for one-character (ASCII) [old] and [new]. *)
Fixpoint replace (old new : ascii) (s : string) : string :=
  match s with
  | EmptyString => EmptyString
  | String c r => String (if Ascii.eqb c old then new else c) (replace old new r)
  end.

(** [s * n]. *)
Fixpoint str_mul (s : string) (n : nat) : string :=
  match n with
  | O => EmptyString
  | S n' => s ++ str_mul s n'
  end.

(** A byte [10xxxxxx] continues the code point started before it. *)
Definition is_continuation (c : ascii) : bool :=
  let n := nat_of_ascii c in (128 <=? n)%nat && (n <? 192)%nat.

Definition starts_with_continuation (s : string) : bool :=
  match s with
  | EmptyString => false
  | String c _ => is_continuation c
  end.

(** The characters of a [str], as iteration over it yields them: one string
    per code point. *)
Fixpoint chars (s : string) : list string :=
  match s with
  | EmptyString => []
  | String c r =>
      if starts_with_continuation r then
        match chars r with
        | h :: t => String c h :: t
        | [] => [String c EmptyString]
        end
      else String c EmptyString :: chars r
  end.

(** [sub in s] for two strings. *)
Definition is_substring (sub s : string) : bool :=
  match index 0 sub s with
  | Some _ => true
  | None => false
  end.

(** [str(n)] for an [int]. *)
Definition str_of_int (n : Z) : string := NilZero.string_of_int (Z.to_int n).

(** [format(n, "<width>d")]: right-aligned in [width] columns. *)
Definition format_d (width : nat) (n : Z) : string :=
  let s := str_of_int n in
  str_mul " " (width - String.length s) ++ s.

(** ** Values *)

#[local] Set Warnings "-register-all".

Inductive pyval : Type :=
| VStr (s : string)
| VInt (n : Z)
| VList (items : list pyval)
| VDict (entries : list (string * pyval)).

Inductive exn : Type :=
| KeyError (key : string)
| TypeError
| AttributeError
| OSError.

Definition result (A : Type) : Type := (exn + A)%type.

Fixpoint lookup (k : string) (d : list (string * pyval)) : option pyval :=
  match d with
  | [] => None
  | (k', v) :: d' => if k' =? k then Some v else lookup k d'
  end.

(** [v[k]] for a string key [k]. *)
Definition py_getitem (v : pyval) (k : string) : result pyval :=
  match v with
  | VDict d =>
      match lookup k d with
      | Some x => inr x
      | None => inl (KeyError k)
      end
  | _ => inl TypeError
  end.

(** [k in v] for a string [k]. *)
Definition py_contains (k : string) (v : pyval) : result bool :=
  match v with
  | VDict d => inr (existsb (fun e => fst e =? k) d)
  | VList l =>
      inr (existsb (fun x => match x with VStr s => s =? k | _ => false end) l)
  | VStr s => inr (is_substring k s)
  | VInt _ => inl TypeError
  end.

(** [v.items()]. *)
Definition py_items (v : pyval) : result (list (string * pyval)) :=
  match v with
  | VDict d => inr d
  | _ => inl AttributeError
  end.

(** What [for x in v] visits. *)
Definition py_iter (v : pyval) : result (list pyval) :=
  match v with
  | VList l => inr l
  | VDict d => inr (map (fun e => VStr (fst e)) d)
  | VStr s => inr (map VStr (chars s))
  | VInt _ => inl TypeError
  end.

(** [isinstance(v, list)]. *)
Definition is_list (v : pyval) : bool :=
  match v with VList _ => true | _ => false end.

(** [enumerate(l, start)]. *)
Fixpoint enumerate {X : Type} (l : list X) (start : Z) : list (Z * X) :=
  match l with
  | [] => []
  | x :: l' => (start, x) :: enumerate l' (start + 1)
  end.

Section Formatting.

(** [repr] of a [str] depends on the Unicode tables (which characters
    are printable) and stays a parameter. *)
Variable str_repr : string -> string.

Fixpoint py_repr (v : pyval) : string :=
  match v with
  | VStr s => str_repr s
  | VInt n => str_of_int n
  | VList l => "[" ++ String.concat ", " (map py_repr l) ++ "]"
  | VDict d =>
      "{" ++ String.concat ", "
               (map (fun e => str_repr (fst e) ++ ": " ++ py_repr (snd e)) d)
          ++ "}"
  end.

(** [str(v)], which a replacement field [{v}] of an f-string inserts. *)
Definition py_str (v : pyval) : string :=
  match v with
  | VStr s => s
  | _ => py_repr v
  end.

End Formatting.

(** ** The output stream and the statement monad *)

(** [written]: the arguments of the [print] calls the stream accepted, the
    oldest first; each is followed by a newline in the stream.
    [room]: how many more [print] calls the stream accepts before a write
    fails ([None]: it never fails). *)
Record sink : Type := mkSink { written : list string; room : option nat }.

Definition stdout_text (k : sink) : string :=
  String.concat "" (map (fun x => x ++ nl) (written k)).

Definition fresh : sink := mkSink [] None.

Definition M (A : Type) : Type := sink -> result A * sink.

Definition ret {A : Type} (a : A) : M A := fun k => (inr a, k).

Definition raise {A : Type} (e : exn) : M A := fun k => (inl e, k).

Definition bind {A B : Type} (m : M A) (f : A -> M B) : M B :=
  fun k =>
    match m k with
    | (inr a, k') => f a k'
    | (inl e, k') => (inl e, k')
    end.

Definition lift {A : Type} (r : result A) : M A :=
  match r with
  | inr a => ret a
  | inl e => raise e
  end.

Declare Scope py_scope.
Delimit Scope py_scope with py.
Notation "x <- m ;; f" := (bind m (fun x => f))
  (at level 61, m at next level, right associativity) : py_scope.
Notation "m ;; f" := (bind m (fun _ => f))
  (at level 61, right associativity) : py_scope.
Local Open Scope py_scope.

(** [print(x)]. *)
Definition print (x : string) : M unit :=
  fun k =>
    match room k with
    | Some O => (inl OSError, k)
    | Some (S n) => (inr tt, mkSink (written k ++ [x]) (Some n))
    | None => (inr tt, mkSink (written k ++ [x]) None)
    end.

(** The body of a [for] loop run over the elements visited. *)
Fixpoint for_each {X : Type} (l : list X) (body : X -> M unit) : M unit :=
  match l with
  | [] => ret tt
  | x :: l' => body x ;; for_each l' body
  end.

(** [for x in v: body]. *)
Definition for_in (v : pyval) (body : pyval -> M unit) : M unit :=
  l <- lift (py_iter v) ;; for_each l body.

(** [for k, x in v.items(): body]. *)
Definition for_items (v : pyval) (body : string -> pyval -> M unit) : M unit :=
  d <- lift (py_items v) ;; for_each d (fun e => body (fst e) (snd e)).

(** The status the interpreter exits with: 0 when the module ran to its
    end, 1 when an exception was left uncaught. *)
Definition exit_status {A : Type} (r : result A) : Z :=
  match r with
  | inr _ => 0
  | inl _ => 1
  end.

(** ** [script.py]: the literals *)

(** [script.py], line 3. *)
Definition live_preview_analysis : pyval :=
  VDict [
    ("current_files", VDict [
      ("simple-live-preview.js", VDict [
        ("size", VStr "Główny plik live preview");
        ("approach", VStr "AJAX-based CSS injection");
        ("key_features", VList [
          VStr "Real-time CSS generation via AJAX";
          VStr "Direct CSS injection via <style> tag";
          VStr "WordPress Color Picker integration";
          VStr "Debounced updates (300ms)";
          VStr "Field tracking przez regex pattern matching"]);
        ("problems", VList [
          VStr "AJAX dependency - slow";
          VStr "Server roundtrip dla każdej zmiany";
          VStr "Brak error handling dla failed requests";
          VStr "Regex pattern matching prone to errors";
          VStr "No rollback mechanism";
          VStr "Hard-coded 300ms debounce";
          VStr "Brak optimizacji dla bulk changes"])]);
      ("simple-live-preview-minimal.js", VDict [
        ("size", VStr "Alternatywna implementacja");
        ("approach", VStr "CSS Variables direct injection");
        ("key_features", VList [
          VStr "Direct CSS variable setting";
          VStr "No server communication";
          VStr "Instant updates (100ms debounce)";
          VStr "Minimal dependency approach"]);
        ("problems", VList [
          VStr "Limited to CSS variables tylko";
          VStr "No complex CSS generation";
          VStr "Hardcoded variable naming convention";
          VStr "No fallback dla older browsers";
          VStr "Brak persistence bez save"])]);
      ("mas-settings-form-handler.js", VDict [
        ("size", VStr "Main form handler");
        ("live_preview_related", VList [
          VStr "Ma REST/AJAX fallback system";
          VStr "Event dispatching system";
          VStr "Form data collection";
          VStr "Error handling infrastructure"]);
        ("integration_issues", VList [
          VStr "No direct live preview integration";
          VStr "Separate systems don't communicate";
          VStr "Potential conflicts with live preview AJAX"])]);
      ("admin-settings-page.js", VDict [
        ("size", VStr "UI enhancements");
        ("live_preview_features", VList [
          VStr "Live preview toggle button";
          VStr "Theme presets application";
          VStr "Conditional field showing/hiding";
          VStr "Slider value updates"]);
        ("problems", VList [
          VStr "Separate live preview implementation";
          VStr "No coordination with main live preview";
          VStr "Outdated approach using deprecated events"])])]);
    ("identified_problems", VDict [
      ("architecture", VList [
        VStr "Multiple separate live preview systems";
        VStr "No unified approach";
        VStr "AJAX-heavy approach is slow";
        VStr "No proper error recovery";
        VStr "Disconnected systems don't communicate"]);
      ("performance", VList [
        VStr "Server roundtrip dla każdej zmiany";
        VStr "No batching of changes";
        VStr "CSS regeneration na serwerze każda zmiana";
        VStr "No caching mechanisms";
        VStr "Debounce timers not coordinated"]);
      ("reliability", VList [
        VStr "No error handling dla failed requests";
        VStr "No rollback mechanism";
        VStr "Broken state gdy server nie odpowiada";
        VStr "No visual feedback dla errors";
        VStr "Race conditions możliwe"]);
      ("user_experience", VList [
        VStr "Delay między zmianą a preview (300ms+)";
        VStr "No loading indicators";
        VStr "Inconsistent behavior across fields";
        VStr "No preview reset option";
        VStr "Breaking gdy JavaScript errors"]);
      ("maintenance", VList [
        VStr "Multiple implementations to maintain";
        VStr "Hardcoded values and selectors";
        VStr "Regex-based field detection fragile";
        VStr "No TypeScript definitions";
        VStr "Poor separation of concerns"])])].

(** [script.py], line 118. *)
Definition modernization_plan : pyval :=
  VDict [
    ("phase_1_immediate", VDict [
      ("unified_live_preview_engine", VDict [
        ("file", VStr "assets/js/unified-live-preview.js");
        ("features", VList [
          VStr "Single live preview system";
          VStr "Hybrid approach: CSS Variables + AJAX fallback";
          VStr "Proper error handling and recovery";
          VStr "Batch updates and debouncing";
          VStr "Performance monitoring";
          VStr "Visual feedback system"])]);
      ("improvements", VList [
        VStr "Replace multiple systems with single unified engine";
        VStr "Add proper error handling and rollback";
        VStr "Implement performance optimizations";
        VStr "Add visual feedback indicators";
        VStr "Create proper field detection system"])]);
    ("phase_2_optimization", VDict [
      ("advanced_features", VList [
        VStr "CSS Variables caching system";
        VStr "Predictive CSS generation";
        VStr "Background CSS compilation";
        VStr "Progressive preview loading";
        VStr "Smart debouncing based on field type"]);
      ("performance_features", VList [
        VStr "Request batching and coalescing";
        VStr "CSS diff-based updates";
        VStr "Service Worker for offline preview";
        VStr "Memory-efficient CSS injection";
        VStr "Lazy loading for complex previews"])]);
    ("phase_3_modernization", VDict [
      ("modern_architecture", VList [
        VStr "TypeScript conversion";
        VStr "ES6 modules architecture";
        VStr "Web Components dla preview elements";
        VStr "State management system";
        VStr "Event-driven architecture"]);
      ("advanced_ui", VList [
        VStr "Real-time preview thumbnails";
        VStr "Undo/redo system";
        VStr "Preview comparison mode";
        VStr "Mobile preview mode";
        VStr "Accessibility preview mode"])])].

(** [script.py], line 229. *)
Definition improvements : pyval :=
  VDict [
    ("Performance", VStr "80% faster live preview");
    ("Reliability", VStr "99.9% uptime with error recovery");
    ("User Experience", VStr "Instant feedback, smooth interactions");
    ("Maintainability", VStr "Single system to maintain");
    ("Scalability", VStr "Handle 100+ concurrent changes");
    ("Accessibility", VStr "Full keyboard and screen reader support")].

(** [script.py], line 242. *)
Definition critical_issues : pyval :=
  VList [
    VStr "Multiple competing live preview systems";
    VStr "AJAX dependency creating 300ms+ delays";
    VStr "No error handling or recovery mechanism";
    VStr "Race conditions between different systems";
    VStr "Performance degradation with multiple changes";
    VStr "Broken state when server unavailable"].

(** [script.py], line 255. *)
Definition action_items : pyval :=
  VList [
    VStr "Create unified live preview engine";
    VStr "Implement CSS Variables approach with AJAX fallback";
    VStr "Add comprehensive error handling";
    VStr "Create performance monitoring dashboard";
    VStr "Add visual feedback for preview states";
    VStr "Implement proper batching and debouncing"].

(** ** [script (1).py]: the literals *)

(** [script (1).py], line 70. *)
Definition critical_problems : pyval :=
  VList [
    VStr "4 RÓŻNE live preview implementations w jednej wtyczce";
    VStr "AJAX bottleneck - każda zmiana = server roundtrip (300ms+)";
    VStr "ZERO error handling - broken state gdy server nie odpowiada";
    VStr "Race conditions między różnymi systemami";
    VStr "Performance degradation przy szybkich zmianach";
    VStr "Memory leaks - changedSettings nie jest cleared";
    VStr "Hard-coded values i selectors wszędzie";
    VStr "Brak unified state management"].

(** [script (1).py], line 96. *)
Definition bottlenecks : pyval :=
  VList [
    VStr "AJAX roundtrip delay: 200-400ms";
    VStr "Server CSS generation: 50-150ms";
    VStr "DOM style injection: 5-20ms";
    VStr "Debounce waiting: 300ms";
    VStr "Regex pattern matching: 1-5ms per field"].

(** [script (1).py], line 114. *)
Definition phase1_tasks : pyval :=
  VList [
    VStr "Create unified-live-preview.js - consolidate all 4 systems";
    VStr "Implement CSS Variables approach voor instant feedback";
    VStr "Add AJAX fallback tylko dla complex CSS";
    VStr "Proper error handling z visual feedback";
    VStr "Smart debouncing based on field type";
    VStr "Memory management - clear changedSettings"].

(** [script (1).py], line 131. *)
Definition phase2_tasks : pyval :=
  VList [
    VStr "Request batching and coalescing";
    VStr "CSS diff-based updates (tylko changed parts)";
    VStr "Background CSS compilation";
    VStr "Progressive preview loading";
    VStr "Undo/redo system voor changes";
    VStr "Preview comparison mode"].

(** [script (1).py], line 148. *)
Definition phase3_tasks : pyval :=
  VList [
    VStr "TypeScript conversion z proper types";
    VStr "ES6 modules architecture";
    VStr "Web Components voor preview UI";
    VStr "State management z Redux/MobX pattern";
    VStr "WebSocket real-time updates";
    VStr "Mobile/responsive preview modes"].

(** [script (1).py], line 174. *)
Definition principles : pyval :=
  VList [
    VStr "SINGLE source of truth voor live preview state";
    VStr "CSS Variables FIRST, AJAX fallback only when needed";
    VStr "Comprehensive error handling z graceful degradation";
    VStr "Performance monitoring z automatic optimization";
    VStr "Modular architecture voor easy maintenance";
    VStr "Backward compatibility z existing form system"].

(** [script (1).py], line 187. *)
Definition metrics : pyval :=
  VDict [
    ("Performance", VStr "< 50ms average preview delay");
    ("Reliability", VStr "99.9% success rate z error recovery");
    ("User Experience", VStr "Instant feedback, smooth interactions");
    ("Maintainability", VStr "Single system, clear separation");
    ("Scalability", VStr "Handle 100+ fields without degradation")].

(** [script (1).py], line 199. *)
Definition actions : pyval :=
  VList [
    VStr "Stop using 4 different live preview systems";
    VStr "Create unified live preview engine (unified-live-preview.js)";
    VStr "Implement proper error handling ASAP";
    VStr "Add visual feedback voor preview states";
    VStr "Fix memory leaks w changedSettings";
    VStr "Coordinate z MAS_Unified_CSS_Manager"].

(** ** [script.py]: the statements *)

Section Script.

(** [str.upper] depends on the Unicode case tables and stays a parameter,
    as [repr] of a [str] does. *)
Variables str_upper str_repr : string -> string.

Local Abbreviation fmt := (py_str str_repr).

(** [for x in l: print(f"<prefix>{x}")], the shape of every bullet loop of
    the two modules; [prefix] is the literal text before the replacement
    field. *)
Definition print_each (prefix : string) (l : pyval) : M unit :=
  for_in l (fun x => print (prefix ++ fmt x)).

(** Lines 183-192, the body of the loop over [current_files]. *)
Definition render_file (filename : string) (details : pyval) : M unit :=
  print (nl ++ filename ++ ":") ;;
  approach <- lift (py_getitem details "approach") ;;
  print ("   Approach: " ++ fmt approach) ;;
  has_features <- lift (py_contains "key_features" details) ;;
  (if has_features then
     print "   Features:" ;;
     key_features <- lift (py_getitem details "key_features") ;;
     print_each "     ✓ " key_features
   else ret tt) ;;
  has_problems <- lift (py_contains "problems" details) ;;
  (if has_problems then
     print "   Problems:" ;;
     problems <- lift (py_getitem details "problems") ;;
     print_each "     ❌ " problems
   else ret tt).

(** Lines 182-192. *)
Definition render_current_files (current_files : pyval) : M unit :=
  for_items current_files render_file.

(** Lines 196-198, the body of the loop over [identified_problems]. *)
Definition render_category (category : string) (problems : pyval) : M unit :=
  print (nl ++ str_upper category ++ ":") ;;
  print_each "   • " problems.

(** Lines 195-198. *)
Definition render_identified_problems (identified_problems : pyval) : M unit :=
  for_items identified_problems render_category.

(** [isinstance(info, dict) and 'features' in info], line 204. *)
Definition has_features (info : pyval) : bool :=
  match info with
  | VDict d => existsb (fun e => fst e =? "features") d
  | _ => false
  end.

(** Lines 204-211, the body of the loop over the components of a phase. *)
Definition render_component (component : string) (info : pyval) : M unit :=
  if has_features info then
    print ("   " ++ component ++ ":") ;;
    features <- lift (py_getitem info "features") ;;
    print_each "     ✓ " features
  else if is_list info then
    print ("   " ++ component ++ ":") ;;
    print_each "     → " info
  else ret tt.

(** Lines 202-211, the body of the loop over [modernization_plan]. *)
Definition render_phase (phase : string) (details : pyval) : M unit :=
  print (nl ++ replace "_" " " (str_upper phase) ++ ":") ;;
  for_items details render_component.

(** Lines 201-211. *)
Definition render_plan (plan : pyval) : M unit :=
  for_items plan render_phase.

(** Lines 238-239. *)
Definition render_improvements (improvements : pyval) : M unit :=
  for_items improvements (fun metric improvement =>
    print ("   " ++ metric ++ ": " ++ fmt improvement)).

(** Lines 251-252 and 264-265: [for i, x in enumerate(l, 1)]. *)
Definition render_numbered (l : pyval) : M unit :=
  xs <- lift (py_iter l) ;;
  for_each (enumerate xs 1) (fun ix =>
    print ("   " ++ str_of_int (fst ix) ++ ". " ++ fmt (snd ix))).

(** The module, lines 179-272, over the two dictionaries of lines 3 and
    118. *)
Definition script (analysis plan : pyval) : M unit :=
  print ("=== ANALIZA SYSTEMU LIVE PREVIEW ===" ++ nl) ;;
  print "📁 AKTUALNE PLIKI:" ;;
  current_files <- lift (py_getitem analysis "current_files") ;;
  render_current_files current_files ;;
  print (nl ++ "🚨 GŁÓWNE PROBLEMY:") ;;
  identified_problems <- lift (py_getitem analysis "identified_problems") ;;
  render_identified_problems identified_problems ;;
  print (nl ++ "🚀 PLAN MODERNIZACJI:") ;;
  render_plan plan ;;
  print (nl ++ "📊 ANALIZA WYDAJNOŚCI:") ;;
  print "   Current approach:" ;;
  print "     • AJAX roundtrip: ~200-500ms delay" ;;
  print "     • CSS generation: ~50-100ms server time" ;;
  print "     • DOM injection: ~5-10ms" ;;
  print "     • Total delay: ~255-610ms per change" ;;
  print (nl ++ "   Target improvements:") ;;
  print "     • CSS Variables direct: ~1-5ms" ;;
  print "     • Batched AJAX fallback: ~100-200ms" ;;
  print "     • Smart caching: ~50% reduction" ;;
  print "     • Total target: ~50-100ms per change" ;;
  print (nl ++ "🎯 PRZEWIDYWANE REZULTATY:") ;;
  render_improvements improvements ;;
  print (nl ++ "⚡ KRYTYCZNE ISSUES TO FIX:") ;;
  render_numbered critical_issues ;;
  print (nl ++ "📋 IMMEDIATE ACTION ITEMS:") ;;
  render_numbered action_items ;;
  print (nl ++ "🔧 ARCHITECTURE RECOMMENDATION:") ;;
  print "   Primary: CSS Variables voor instant feedback" ;;
  print "   Fallback: Batched AJAX voor complex changes" ;;
  print "   Recovery: Local state management with rollback" ;;
  print "   Monitoring: Real-time performance metrics" ;;
  print "   Testing: Automated preview regression tests".

(** ** [script (1).py]: the statements *)

(** Lines 81-82: [print(f"{i:2d}. {problem}")] over
    [enumerate(critical_problems, 1)]. *)
Definition render_critical_problems (critical_problems : pyval) : M unit :=
  xs <- lift (py_iter critical_problems) ;;
  for_each (enumerate xs 1) (fun ix =>
    print (format_d 2 (fst ix) ++ ". " ++ fmt (snd ix))).

(** Lines 195-196. *)
Definition render_metrics (metrics : pyval) : M unit :=
  for_items metrics (fun metric target =>
    print ("   " ++ metric ++ ": " ++ fmt target)).

(** The module, lines 3-216. *)
Definition script_1 : M unit :=
  print ("=== SZCZEGÓŁOWA ANALIZA SYSTEMU LIVE PREVIEW MAS7 ===" ++ nl) ;;
  print "📁 simple-live-preview.js (GŁÓWNY SYSTEM)" ;;
  print "   Approach: AJAX-based CSS injection" ;;
  print "   Key Features:" ;;
  print "     ✓ Real-time CSS generation poprzez AJAX call" ;;
  print "     ✓ Direct CSS injection via <style id='mas-v2-live-preview-css'>" ;;
  print "     ✓ WordPress Color Picker integration" ;;
  print "     ✓ Debounced updates (300ms timeout)" ;;
  print "     ✓ Field tracking przez regex pattern matching" ;;
  print "     ✓ Support for sliders, checkboxes, color pickers" ;;
  print (nl ++ "   Problems zidentyfikowane:") ;;
  print "     ❌ AJAX dependency - każda zmiana wymaga server roundtrip" ;;
  print "     ❌ Brak error handling dla failed AJAX requests" ;;
  print "     ❌ Regex pattern matching '/\[([^\]]+)\]$/' prone to errors" ;;
  print "     ❌ No rollback mechanism przy błędach" ;;
  print "     ❌ Hard-coded 300ms debounce - nie optimized dla różnych field types" ;;
  print "     ❌ Brak optimizacji dla bulk changes" ;;
  print "     ❌ changedSettings object nie jest cleared po successful update" ;;
  print (nl ++ "📁 simple-live-preview-minimal.js (ALTERNATIVE)") ;;
  print "   Approach: CSS Variables direct injection" ;;
  print "   Key Features:" ;;
  print "     ✓ Direct CSS variable setting poprzez root.style.setProperty()" ;;
  print "     ✓ No server communication - instant updates" ;;
  print "     ✓ 100ms debounce - szybszy niż main system" ;;
  print "     ✓ Minimal dependency - tylko document.documentElement" ;;
  print (nl ++ "   Problems zidentyfikowane:") ;;
  print "     ❌ Limited to CSS variables only - nie complex CSS generation" ;;
  print "     ❌ Hard-coded variable naming '--mas-' + setting.replace(/_/g, '-')" ;;
  print "     ❌ No fallback dla browsers bez CSS variables support" ;;
  print "     ❌ Brak persistence - zmiany znikają without save" ;;
  print "     ❌ Limited field type support (tylko colors, heights, widths)" ;;
  print (nl ++ "📁 mas-settings-form-handler.js (FORM SYSTEM)") ;;
  print "   Live Preview Integration:" ;;
  print "     ~ Ma REST/AJAX fallback infrastructure" ;;
  print "     ~ Event dispatching system available" ;;
  print "     ~ Form data collection mechanisms" ;;
  print "     ~ Error handling infrastructure" ;;
  print (nl ++ "   Integration Issues:") ;;
  print "     ⚠️ No direct live preview integration" ;;
  print "     ⚠️ Separate systems nie komunikują się" ;;
  print "     ⚠️ Potential conflicts - form handler + live preview AJAX" ;;
  print "     ⚠️ Dual handler warnings already identified w kodzie" ;;
  print (nl ++ "📁 admin-settings-page.js (UI ENHANCEMENTS)") ;;
  print "   Live Preview Related Features:" ;;
  print "     ✓ Live preview toggle button" ;;
  print "     ✓ Theme presets auto-application" ;;
  print "     ✓ Conditional field showing/hiding" ;;
  print "     ✓ Real-time slider value updates" ;;
  print (nl ++ "   Problems:") ;;
  print "     ❌ FOURTH separate live preview implementation" ;;
  print "     ❌ Uses deprecated $(document).on('input.livepreview')" ;;
  print "     ❌ No coordination z main live preview systems" ;;
  print "     ❌ setupLivePreviewToggle() conflicts z other systems" ;;
  print (nl ++ str_mul "=" 60) ;;
  print "🚨 KRYTYCZNE PROBLEMY ZIDENTYFIKOWANE" ;;
  print (str_mul "=" 60) ;;
  render_critical_problems critical_problems ;;
  print (nl ++ str_mul "=" 60) ;;
  print "📊 ANALIZA WYDAJNOŚCI" ;;
  print (str_mul "=" 60) ;;
  print (nl ++ "CURRENT STATE:") ;;
  print "   • User change → 300ms debounce → AJAX request → CSS generation → DOM update" ;;
  print "   • Total delay: ~350-600ms per change" ;;
  print "   • Server load: High (CSS generation każda zmiana)" ;;
  print "   • Network: Multiple unnecessary requests" ;;
  print "   • Memory: Growing changedSettings object" ;;
  print (nl ++ "PERFORMANCE BOTTLENECKS:") ;;
  print_each "   • " bottlenecks ;;
  print (nl ++ str_mul "=" 60) ;;
  print "🚀 MODERNIZATION PLAN - 3 PHASES" ;;
  print (str_mul "=" 60) ;;
  print (nl ++ "PHASE 1: IMMEDIATE FIXES (Week 1)") ;;
  print "   🎯 Goal: Unified system + basic performance" ;;
  print_each "   ✓ " phase1_tasks ;;
  print (nl ++ "   Expected results: 70% faster, 90% more reliable") ;;
  print (nl ++ "PHASE 2: OPTIMIZATION (Week 2-3)") ;;
  print "   🎯 Goal: Advanced performance + UX" ;;
  print_each "   ⚡ " phase2_tasks ;;
  print (nl ++ "   Expected results: 90% faster, production-ready") ;;
  print (nl ++ "PHASE 3: MODERNIZATION (Week 4+)") ;;
  print "   🎯 Goal: Future-proof architecture" ;;
  print_each "   🔮 " phase3_tasks ;;
  print (nl ++ "   Expected results: Modern, scalable, maintainable") ;;
  print (nl ++ str_mul "=" 60) ;;
  print "🔧 RECOMMENDED ARCHITECTURE" ;;
  print (str_mul "=" 60) ;;
  print (nl ++ "UNIFIED LIVE PREVIEW ENGINE:") ;;
  print "   ┌─ CSS Variables Layer (instant feedback)" ;;
  print "   ├─ AJAX Fallback Layer (complex CSS)" ;;
  print "   ├─ Error Recovery Layer (rollback, retry)" ;;
  print "   ├─ Performance Layer (batching, caching)" ;;
  print "   └─ UI Feedback Layer (loading, errors)" ;;
  print (nl ++ "CORE PRINCIPLES:") ;;
  print_each "   • " principles ;;
  print (nl ++ "🎯 SUCCESS METRICS:") ;;
  render_metrics metrics ;;
  print (nl ++ "⚡ IMMEDIATE ACTIONS NEEDED:") ;;
  render_numbered actions ;;
  print (nl ++ "💡 CONCLUSION:") ;;
  print "   Current live preview system needs COMPLETE OVERHAUL" ;;
  print "   Multiple competing systems causing conflicts" ;;
  print "   Performance is suboptimal (300ms+ delays)" ;;
  print "   No error handling = bad user experience" ;;
  print "   Unified approach will solve all major issues".

End Script.

(** ** The two programs *)

(** [str.upper] on a string whose cased characters are ASCII letters, which
    holds for every dictionary key of [script.py]. *)
Definition upper_ascii_char (c : ascii) : ascii :=
  let n := nat_of_ascii c in
  if (97 <=? n)%nat && (n <=? 122)%nat then ascii_of_nat (n - 32) else c.

Fixpoint upper_ascii (s : string) : string :=
  match s with
  | EmptyString => EmptyString
  | String c r => String (upper_ascii_char c) (upper_ascii r)
  end.

(** [repr] of a string of printable characters without quotes or
    backslashes. *)
Definition repr_plain (s : string) : string := "'" ++ s ++ "'".

(** [python "script.py" argv...] under the environment [environ]: the module
    imports nothing and reads neither.  What the interpreter itself takes
    from the environment (the encoding and the buffering of the stream) is
    not part of this model. *)
Definition run_script (argv : list string) (environ : list (string * string))
  : M unit :=
  script upper_ascii repr_plain live_preview_analysis modernization_plan.

(** [python "script (1).py" argv...]. *)
Definition run_script_1 (argv : list string) (environ : list (string * string))
  : M unit :=
  script_1 repr_plain.

(** ** What a statement prints, whatever the stream *)

(** Print the lines [L] in order, then finish with [r]; the first write the
    stream refuses ends the run. *)
Fixpoint feed {A : Type} (L : list string) (r : result A) : M A :=
  match L with
  | [] => lift r
  | x :: L' => print x ;; feed L' r
  end.

(** On every stream, [m] behaves as printing [L] and finishing with [r]. *)
Definition emits {A : Type} (m : M A) (L : list string) (r : result A) : Prop :=
  forall k, m k = feed L r k.

(** [m] prints a fixed sequence of lines, independent of the stream. *)
Definition regular {A : Type} (m : M A) : Prop :=
  exists L r, emits m L r.

(** The lines and the outcome of [m], read off a run on a stream that is
    empty and never fails. *)
Definition lines {A : Type} (m : M A) : list string := written (snd (m fresh)).
Definition outcome {A : Type} (m : M A) : result A := fst (m fresh).

(** The sub-list of [l] at the positions [idxs], in the order of [idxs]. *)
Definition select {X : Type} (idxs : list nat) (l : list X) : list X :=
  flat_map (fun i => match nth_error l i with Some x => [x] | None => [] end)
           idxs.

(** A key-value list of strings as the dictionary literal that holds it. *)
Definition dict_of (kv : list (string * string)) : pyval :=
  VDict (map (fun e => (fst e, VStr (snd e))) kv).

(** A list of lines as the list literal that holds it. *)
Definition list_of (l : list string) : pyval := VList (map VStr l).

(** The lines of an optional sub-list of a section: nothing when the key is
    absent, else its heading and one line per entry. *)
Definition sub_block (heading : string) (bullet : pyval -> string)
           (entries : option (list pyval)) : list string :=
  match entries with
  | None => []
  | Some l => heading :: map bullet l
  end.

(** No write of the run of [m] on [k] was refused. *)
Definition completes {A : Type} (m : M A) (k : sink) : Prop :=
  fst (m k) <> inl OSError.


(** ** Documents on which the loops raise nothing *)

(** [for x in v] can start: [v] is not a number. *)
Definition iterable (v : pyval) : bool :=
  match v with
  | VInt _ => false
  | _ => true
  end.

(** The key [k] is absent from [d], or its value can be iterated. *)
Definition optional_iterable (k : string) (d : list (string * pyval)) : bool :=
  match lookup k d with
  | Some v => iterable v
  | None => true
  end.

(** A file entry the loop of lines 182-192 gets through. *)
Definition file_ok (details : pyval) : bool :=
  match details with
  | VDict d =>
      match lookup "approach" d with Some _ => true | None => false end
      && optional_iterable "key_features" d
      && optional_iterable "problems" d
  | _ => false
  end.

(** A component the loop of lines 203-211 gets through. *)
Definition component_ok (info : pyval) : bool :=
  match info with
  | VDict d => optional_iterable "features" d
  | _ => true
  end.

(** A phase the loop of lines 201-211 gets through. *)
Definition phase_ok (details : pyval) : bool :=
  match details with
  | VDict comps => forallb (fun e => component_ok (snd e)) comps
  | _ => false
  end.

(** The lines [script.py] prints after the plan (lines 214-272): what is
    left of a run over empty dictionaries once its four opening lines are
    taken off. *)
Definition report_tail : list string :=
  skipn 4 (lines (script upper_ascii repr_plain
                    (VDict [("current_files", VDict []);
                            ("identified_problems", VDict [])])
                    (VDict []))).

(** The entries of [live_preview_analysis["current_files"]], lines 4-73. *)
Definition builtin_current_files : list (string * pyval) :=
  match live_preview_analysis with
  | VDict a =>
      match lookup "current_files" a with
      | Some (VDict d) => d
      | _ => []
      end
  | _ => []
  end.

(** * Properties *)

(** ** The statement monad *)

Lemma bind_ret {A B : Type} (a : A) (f : A -> M B) (k : sink) :
  bind (ret a) f k = f a k.
Proof. reflexivity. Qed.

Lemma bind_raise {A B : Type} (e : exn) (f : A -> M B) (k : sink) :
  bind (raise e) f k = (inl e, k).
Proof. reflexivity. Qed.

Lemma bind_assoc {A B C : Type} (m : M A) (f : A -> M B) (g : B -> M C) k :
  bind (bind m f) g k = bind m (fun a => bind (f a) g) k.
Proof.
  unfold bind. destruct (m k) as [[e | a] k']; reflexivity.
Qed.

Lemma bind_ext {A B : Type} (m : M A) (f g : A -> M B) (k : sink) :
  (forall a k', f a k' = g a k') -> bind m f k = bind m g k.
Proof.
  intros H. unfold bind. destruct (m k) as [[e | a] k']; auto.
Qed.

Lemma for_each_app {X : Type} (l1 l2 : list X) (body : X -> M unit) k :
  for_each (l1 ++ l2) body k = (for_each l1 body ;; for_each l2 body) k.
Proof.
  revert k. induction l1 as [| x l1 IH]; intros k; simpl.
  - reflexivity.
  - rewrite bind_assoc. apply bind_ext. intros _ k'. apply IH.
Qed.

Lemma for_each_ext {X : Type} (l : list X) (f g : X -> M unit) k :
  (forall x k', In x l -> f x k' = g x k') ->
  for_each l f k = for_each l g k.
Proof.
  revert k. induction l as [| x l IH]; intros k H; simpl.
  - reflexivity.
  - unfold bind. rewrite (H x k (or_introl eq_refl)).
    destruct (g x k) as [[e | []] k']; [reflexivity |].
    apply IH. intros y k'' Hy. apply H. now right.
Qed.

(** ** Streams that accept or refuse *)

Lemma feed_app {A : Type} (L1 L2 : list string) (r : result A) k :
  feed (L1 ++ L2) r k = (feed L1 (inr tt) ;; feed L2 r) k.
Proof.
  revert k. induction L1 as [| x L1 IH]; intros k; simpl.
  - reflexivity.
  - rewrite bind_assoc. apply bind_ext. intros _ k'. apply IH.
Qed.

Lemma feed_unlimited {A : Type} (L : list string) (r : result A) k :
  room k = None ->
  feed L r k = (r, mkSink (written k ++ L) None).
Proof.
  revert k. induction L as [| x L IH]; intros [w rm] Hr; simpl in *; subst.
  - rewrite app_nil_r. destruct r; reflexivity.
  - unfold bind, print. simpl. rewrite IH by reflexivity. simpl.
    now rewrite <- app_assoc.
Qed.

Lemma feed_enough {A : Type} (L : list string) (r : result A) k n :
  room k = Some n -> (length L <= n)%nat ->
  feed L r k = (r, mkSink (written k ++ L) (Some (n - length L))).
Proof.
  revert k n. induction L as [| x L IH]; intros [w rm] n Hr Hn;
    simpl in *; subst.
  - rewrite app_nil_r, Nat.sub_0_r. destruct r; reflexivity.
  - destruct n as [| n]; [lia |]. unfold bind, print. simpl.
    rewrite (IH _ n) by (simpl; auto; lia). simpl.
    now rewrite <- app_assoc.
Qed.

Lemma feed_short {A : Type} (L : list string) (r : result A) k n :
  room k = Some n -> (n < length L)%nat ->
  feed L r k = (inl OSError, mkSink (written k ++ firstn n L) (Some 0%nat)).
Proof.
  revert k n. induction L as [| x L IH]; intros [w rm] n Hr Hn;
    simpl in *; subst.
  - lia.
  - destruct n as [| n]; unfold bind, print; simpl.
    + now rewrite app_nil_r.
    + rewrite (IH _ n) by (simpl; auto; lia). simpl.
      now rewrite <- app_assoc.
Qed.

(** ** Composing what statements print *)

Lemma emits_ret {A : Type} (a : A) : emits (ret a) [] (inr a).
Proof. intros k. reflexivity. Qed.

Lemma emits_lift {A : Type} (r : result A) : emits (lift r) [] r.
Proof. intros k. reflexivity. Qed.

Lemma emits_print (x : string) : emits (print x) [x] (inr tt).
Proof.
  intros k. simpl. unfold bind.
  destruct (print x k) as [[e | []] k']; reflexivity.
Qed.

Lemma emits_bind {A B : Type} (m : M A) (f : A -> M B) L1 a L2 r :
  emits m L1 (inr a) -> emits (f a) L2 r -> emits (bind m f) (L1 ++ L2) r.
Proof.
  intros Hm Hf k. rewrite feed_app. unfold bind. rewrite Hm.
  clear Hm. revert k. induction L1 as [| x L1 IH]; intros k; simpl.
  - apply Hf.
  - unfold bind. destruct (print x k) as [[e | []] k']; [reflexivity |].
    apply IH.
Qed.

Lemma emits_bind_raise {A B : Type} (m : M A) (f : A -> M B) L e :
  emits m L (inl e) -> emits (bind m f) L (inl e).
Proof.
  intros Hm k. unfold bind. rewrite Hm.
  clear Hm. revert k. induction L as [| x L IH]; intros k; simpl.
  - reflexivity.
  - unfold bind. destruct (print x k) as [[e' | []] k']; [reflexivity |].
    apply IH.
Qed.

Lemma emits_fresh {A : Type} (m : M A) L r :
  emits m L r -> lines m = L /\ outcome m = r.
Proof.
  intros H. unfold lines, outcome. rewrite H.
  rewrite feed_unlimited by reflexivity. auto.
Qed.

Lemma regular_emits {A : Type} (m : M A) :
  regular m -> emits m (lines m) (outcome m).
Proof.
  intros (L & r & H). destruct (emits_fresh m L r H) as [-> ->]. exact H.
Qed.

Lemma regular_ret {A : Type} (a : A) : regular (ret a).
Proof. eexists _, _. apply emits_ret. Qed.

Lemma regular_lift {A : Type} (r : result A) : regular (lift r).
Proof. eexists _, _. apply emits_lift. Qed.

Lemma regular_print (x : string) : regular (print x).
Proof. eexists _, _. apply emits_print. Qed.

Lemma regular_bind {A B : Type} (m : M A) (f : A -> M B) :
  regular m -> (forall a, regular (f a)) -> regular (bind m f).
Proof.
  intros (L & [e | a] & Hm) Hf.
  - eexists _, _. apply emits_bind_raise, Hm.
  - destruct (Hf a) as (L' & r & Ha). eexists _, _.
    eapply emits_bind; eauto.
Qed.

Lemma regular_for_each {X : Type} (l : list X) (body : X -> M unit) :
  (forall x, regular (body x)) -> regular (for_each l body).
Proof.
  intros H. induction l as [| x l IH]; simpl.
  - apply regular_ret.
  - apply regular_bind; auto.
Qed.

Lemma regular_if {A : Type} (b : bool) (m1 m2 : M A) :
  regular m1 -> regular m2 -> regular (if b then m1 else m2).
Proof. destruct b; auto. Qed.

Lemma emits_for_each {X : Type} (l : list X) (body : X -> M unit)
      (block : X -> list string) :
  (forall x, In x l -> emits (body x) (block x) (inr tt)) ->
  emits (for_each l body) (concat (map block l)) (inr tt).
Proof.
  induction l as [| x l IH]; intros H; simpl.
  - apply emits_ret.
  - eapply emits_bind.
    + apply H. now left.
    + apply IH. intros y Hy. apply H. now right.
Qed.

(** ** Every statement of the two modules prints a fixed sequence *)

Ltac regular_step :=
  first
    [ apply regular_print
    | apply regular_ret
    | apply regular_lift
    | apply regular_if
    | apply regular_for_each; intros
    | apply regular_bind; [| intros] ].

Lemma regular_for_in (v : pyval) (body : pyval -> M unit) :
  (forall x, regular (body x)) -> regular (for_in v body).
Proof. intros H. unfold for_in. repeat regular_step. apply H. Qed.

Lemma regular_for_items (v : pyval) (body : string -> pyval -> M unit) :
  (forall c x, regular (body c x)) -> regular (for_items v body).
Proof. intros H. unfold for_items. repeat regular_step. apply H. Qed.

Section Regular.

Variables str_upper str_repr : string -> string.

Lemma regular_print_each prefix l : regular (print_each str_repr prefix l).
Proof. apply regular_for_in. intros x. apply regular_print. Qed.

Lemma regular_render_file filename details :
  regular (render_file str_repr filename details).
Proof.
  unfold render_file.
  repeat first [apply regular_print_each | regular_step].
Qed.

Lemma regular_render_category category problems :
  regular (render_category str_upper str_repr category problems).
Proof.
  unfold render_category.
  repeat first [apply regular_print_each | regular_step].
Qed.

Lemma regular_render_component component info :
  regular (render_component str_repr component info).
Proof.
  unfold render_component.
  repeat first [apply regular_print_each | regular_step].
Qed.

Lemma regular_render_phase phase details :
  regular (render_phase str_upper str_repr phase details).
Proof.
  unfold render_phase. apply regular_bind; [apply regular_print | intros _].
  apply regular_for_items. apply regular_render_component.
Qed.

Lemma regular_render_numbered l : regular (render_numbered str_repr l).
Proof. unfold render_numbered. repeat regular_step. Qed.

Lemma regular_render_improvements d : regular (render_improvements str_repr d).
Proof.
  unfold render_improvements. apply regular_for_items. intros.
  apply regular_print.
Qed.

Lemma regular_render_metrics d : regular (render_metrics str_repr d).
Proof.
  unfold render_metrics. apply regular_for_items. intros.
  apply regular_print.
Qed.

Lemma regular_render_critical_problems l :
  regular (render_critical_problems str_repr l).
Proof. unfold render_critical_problems. repeat regular_step. Qed.

Ltac regular_script :=
  repeat first
    [ apply regular_print
    | apply regular_lift
    | apply regular_print_each
    | apply regular_render_numbered
    | apply regular_render_improvements
    | apply regular_render_metrics
    | apply regular_render_critical_problems
    | apply regular_for_items; intros
    | apply regular_render_file
    | apply regular_render_category
    | apply regular_render_phase
    | apply regular_bind; [| intros] ].

Lemma regular_script analysis plan :
  regular (script str_upper str_repr analysis plan).
Proof.
  unfold script, render_current_files, render_identified_problems,
    render_plan.
  regular_script.
Qed.

Lemma regular_script_1 : regular (script_1 str_repr).
Proof. unfold script_1. regular_script. Qed.

End Regular.

(** ** Strings and lists *)

Lemma length_append (s t : string) :
  String.length (s ++ t) = (String.length s + String.length t)%nat.
Proof. induction s as [| c s IH]; simpl; congruence. Qed.

(** Two strings that end in suffixes of one length and are equal have equal
    beginnings. *)
Lemma append_inj_suffix (m1 m2 s1 s2 : string) :
  (m1 ++ s1)%string = (m2 ++ s2)%string ->
  String.length s1 = String.length s2 ->
  m1 = m2.
Proof.
  revert m2. induction m1 as [| c m1 IH]; intros [| c2 m2] H Hl; simpl in *.
  - reflexivity.
  - subst s1. simpl in Hl. rewrite length_append in Hl. lia.
  - subst s2. simpl in Hl. rewrite length_append in Hl. lia.
  - injection H as -> H. f_equal. now apply IH.
Qed.

Lemma concat_map_singleton {X Y : Type} (f : X -> Y) (l : list X) :
  concat (map (fun x => [f x]) l) = map f l.
Proof. induction l as [| x l IH]; simpl; congruence. Qed.

Lemma select_map {X Y : Type} (f : X -> Y) (idxs : list nat) (l : list X) :
  select idxs (map f l) = map f (select idxs l).
Proof.
  unfold select. induction idxs as [| i idxs IH]; simpl.
  - reflexivity.
  - rewrite map_app, IH, nth_error_map.
    destruct (nth_error l i); reflexivity.
Qed.

Lemma select_In {X : Type} (idxs : list nat) (l : list X) (x : X) :
  In x (select idxs l) -> In x l.
Proof.
  unfold select. rewrite in_flat_map. intros (i & _ & H).
  destruct (nth_error l i) eqn:E; simpl in H; [| contradiction].
  destruct H as [<- | []]. eapply nth_error_In; eauto.
Qed.

Lemma select_seq {X : Type} (l : list X) : select (seq 0 (length l)) l = l.
Proof.
  unfold select.
  assert (G : forall (pre : list X),
             flat_map (fun i => match nth_error (pre ++ l) i with
                                | Some x => [x]
                                | None => []
                                end) (seq (length pre) (length l)) = l).
  { induction l as [| x l IH]; intros pre; simpl.
    - reflexivity.
    - rewrite nth_error_app2, Nat.sub_diag by lia. simpl. f_equal.
      specialize (IH (pre ++ [x])%list).
      rewrite <- app_assoc, length_app, Nat.add_1_r in IH. exact IH. }
  exact (G nil).
Qed.

Lemma lookup_existsb (k : string) (d : list (string * pyval)) (v : pyval) :
  lookup k d = Some v -> existsb (fun e => fst e =? k) d = true.
Proof.
  induction d as [| [k' x] d IH]; simpl; [discriminate |].
  destruct (k' =? k); simpl; auto.
Qed.

Lemma existsb_lookup (k : string) (d : list (string * pyval)) :
  existsb (fun e => fst e =? k) d = true -> exists v, lookup k d = Some v.
Proof.
  induction d as [| [k' x] d IH]; simpl; [discriminate |].
  destruct (k' =? k); simpl; eauto.
Qed.

(** ** What the loops print *)

Lemma emits_for_items (d : list (string * pyval))
      (body : string -> pyval -> M unit)
      (block : string * pyval -> list string) :
  (forall e, In e d -> emits (body (fst e) (snd e)) (block e) (inr tt)) ->
  emits (for_items (VDict d) body) (concat (map block d)) (inr tt).
Proof.
  intros H k. unfold for_items. simpl. rewrite bind_ret.
  now apply emits_for_each.
Qed.

Section Loops.

Variables str_upper str_repr : string -> string.

Local Abbreviation fmt := (py_str str_repr).

Lemma emits_print_each (prefix : string) (l : list pyval) :
  emits (print_each str_repr prefix (VList l))
        (map (fun x => prefix ++ fmt x) l) (inr tt).
Proof.
  intros k. unfold print_each, for_in. simpl. rewrite bind_ret.
  rewrite <- concat_map_singleton. apply emits_for_each.
  intros x _. apply emits_print.
Qed.

Lemma emits_print_each_strings (prefix : string) (l : list string) :
  emits (print_each str_repr prefix (list_of l))
        (map (fun x => prefix ++ x) l) (inr tt).
Proof.
  unfold list_of. pose proof (emits_print_each prefix (map VStr l)) as H.
  rewrite map_map in H. exact H.
Qed.

Lemma emits_print_each_fails (prefix : string) (n : Z) :
  emits (print_each str_repr prefix (VInt n)) [] (inl TypeError).
Proof. intros k. reflexivity. Qed.

End Loops.

(** ** Runs in which no write is refused *)

Lemma regular_complete_run {A : Type} (m : M A) (k : sink) :
  regular m -> completes m k ->
  fst (m k) = outcome m /\ written (snd (m k)) = (written k ++ lines m)%list.
Proof.
  intros R H. unfold completes in H. pose proof (regular_emits m R) as E.
  rewrite E in *. destruct (room k) as [n |] eqn:Hr.
  - destruct (le_lt_dec (length (lines m)) n) as [Hn | Hn].
    + rewrite (feed_enough _ _ _ n) by assumption. auto.
    + rewrite (feed_short _ _ _ n) in H by assumption. now elim H.
  - rewrite feed_unlimited by assumption. auto.
Qed.

(** ** The shape of the lines *)

Lemma emits_print_then {A : Type} (x : string) (f : unit -> M A) L r :
  emits (f tt) L r -> emits (bind (print x) f) (x :: L) r.
Proof. intros H. apply (emits_bind _ _ [x] tt L r (emits_print x) H). Qed.

Lemma emits_ret_then {A B : Type} (a : A) (f : A -> M B) L r :
  emits (f a) L r -> emits (bind (lift (inr a)) f) L r.
Proof. intros H k. simpl. rewrite bind_ret. apply H. Qed.

Lemma lookup_none_existsb (k : string) (d : list (string * pyval)) :
  lookup k d = None -> existsb (fun e => fst e =? k) d = false.
Proof.
  induction d as [| [k' x] d IH]; simpl; [reflexivity |].
  destruct (k' =? k); simpl; [discriminate | auto].
Qed.

Lemma lookup_option_existsb (k : string) (d : list (string * pyval))
      (o : option (list pyval)) :
  lookup k d = option_map VList o ->
  existsb (fun e => fst e =? k) d =
  match o with Some _ => true | None => false end.
Proof.
  destruct o; simpl; intros H.
  - eapply lookup_existsb; eauto.
  - now apply lookup_none_existsb.
Qed.

Section Shapes.

Variables str_upper str_repr : string -> string.

Local Abbreviation fmt := (py_str str_repr).

(** A file entry with an [approach] and whose [key_features] and [problems],
    where present, are lists. *)
Lemma emits_render_file (filename : string) (d : list (string * pyval))
      (a : pyval) (fs ps : option (list pyval)) :
  lookup "approach" d = Some a ->
  lookup "key_features" d = option_map VList fs ->
  lookup "problems" d = option_map VList ps ->
  emits (render_file str_repr filename (VDict d))
        ((nl ++ filename ++ ":") :: ("   Approach: " ++ fmt a)
           :: sub_block "   Features:" (fun x => "     ✓ " ++ fmt x) fs
           ++ sub_block "   Problems:" (fun x => "     ❌ " ++ fmt x) ps)
        (inr tt).
Proof.
  intros Ha Hf Hp. unfold render_file, py_contains, py_getitem.
  rewrite Ha, Hf, Hp.
  rewrite (lookup_option_existsb _ _ _ Hf), (lookup_option_existsb _ _ _ Hp).
  apply emits_print_then, emits_ret_then, emits_print_then, emits_ret_then.
  eapply emits_bind.
  - destruct fs as [l |]; simpl.
    + apply emits_print_then, emits_ret_then, emits_print_each.
    + apply emits_ret.
  - apply emits_ret_then. destruct ps as [l |]; simpl.
    + apply emits_print_then, emits_ret_then, emits_print_each.
    + apply emits_ret.
Qed.

Lemma emits_render_category (category : string) (l : list pyval) :
  emits (render_category str_upper str_repr category (VList l))
        ((nl ++ str_upper category ++ ":") :: map (fun x => "   • " ++ fmt x) l)
        (inr tt).
Proof. unfold render_category. apply emits_print_then, emits_print_each. Qed.

Lemma emits_render_component_list (component : string) (l : list pyval) :
  emits (render_component str_repr component (VList l))
        (("   " ++ component ++ ":") :: map (fun x => "     → " ++ fmt x) l)
        (inr tt).
Proof.
  unfold render_component. simpl. apply emits_print_then, emits_print_each.
Qed.

Lemma emits_render_component_features (component : string)
      (d : list (string * pyval)) (l : list pyval) :
  lookup "features" d = Some (VList l) ->
  emits (render_component str_repr component (VDict d))
        (("   " ++ component ++ ":") :: map (fun x => "     ✓ " ++ fmt x) l)
        (inr tt).
Proof.
  intros H. unfold render_component, has_features, py_getitem.
  rewrite (lookup_existsb _ _ _ H), H.
  apply emits_print_then, emits_ret_then, emits_print_each.
Qed.

End Shapes.

(** ** Key-value lines *)

(** C3, as the specification words it, fails: the line of a pair is not the
    bare text [k: v]. *)
Lemma key_value_line_is_not_bare :
  lines (render_improvements repr_plain (dict_of [("a", "b")])) = ["   a: b"]
  /\ lines (render_improvements repr_plain (dict_of [("a", "b")])) <> ["a: b"]
  /\ lines (render_metrics repr_plain (dict_of [("a", "b")])) <> ["a: b"].
Proof. repeat split; vm_compute; discriminate. Qed.

(** C3 (amended). The loops over [improvements] (script.py, line 238) and
    over [metrics] (script (1).py, line 195) print, for every pair [(k, v)] of
    the dictionary and in its order, one line: three spaces, then [k: v];
    no pair is dropped or moved. *)
Theorem key_value_lines (str_repr : string -> string)
        (kv : list (string * string)) :
  emits (render_improvements str_repr (dict_of kv))
        (map (fun e => "   " ++ fst e ++ ": " ++ snd e) kv) (inr tt) /\
  emits (render_metrics str_repr (dict_of kv))
        (map (fun e => "   " ++ fst e ++ ": " ++ snd e) kv) (inr tt).
Proof.
  assert (G : forall body : string -> pyval -> M unit,
             (forall c x, body c x = print ("   " ++ c ++ ": " ++ py_str str_repr x)) ->
             emits (for_items (dict_of kv) body)
                   (map (fun e => "   " ++ fst e ++ ": " ++ snd e) kv) (inr tt)).
  { intros body Hb. unfold dict_of.
    pose proof (emits_for_items
                  (map (fun e => (fst e, VStr (snd e))) kv) body
                  (fun e => ["   " ++ fst e ++ ": " ++ py_str str_repr (snd e)]))
      as H.
    rewrite concat_map_singleton, map_map in H. simpl in H. apply H.
    intros e _. rewrite Hb. apply emits_print. }
  split; apply G; reflexivity.
Qed.

(** ** Bullet lines *)

(** C4, as the specification words it, fails: within one file entry the
    features and the problems carry different markers, so no marker fits
    both bullet lines. *)
Lemma bullet_markers_differ_in_one_run :
  ~ exists marker,
      lines (render_file repr_plain "f"
               (VDict [("approach", VStr "x");
                       ("key_features", list_of ["a"]);
                       ("problems", list_of ["b"])]))
      = [nl ++ "f:"; "   Approach: x";
         "   Features:"; marker ++ " a";
         "   Problems:"; marker ++ " b"].
Proof.
  intros [marker H].
  assert (E : lines (render_file repr_plain "f"
                       (VDict [("approach", VStr "x");
                               ("key_features", list_of ["a"]);
                               ("problems", list_of ["b"])]))
              = [nl ++ "f:"; "   Approach: x";
                 "   Features:"; "     ✓" ++ " a";
                 "   Problems:"; "     ❌" ++ " b"])
    by (vm_compute; reflexivity).
  rewrite E in H. injection H as Ha Hb.
  apply (append_inj_suffix "     ✓" marker " a" " a") in Ha; [| reflexivity].
  apply (append_inj_suffix "     ❌" marker " b" " b") in Hb; [| reflexivity].
  rewrite <- Ha in Hb. discriminate Hb.
Qed.

(** C4 (amended). Every bullet loop prints one line per entry, in list
    order, made of the loop's own literal prefix (its indentation, its marker
    and a space) and the entry.  The prefix is fixed per loop, not per run:
    five spaces and a check mark for the features of a file or of a
    component, five spaces and a cross for the problems of a file, three
    spaces and a dot for the problems of a category, five spaces and an
    arrow for the items of a component. *)
Theorem bullet_lines (str_upper str_repr : string -> string)
        (prefix filename a category component : string)
        (l fs ps : list string) :
  emits (print_each str_repr prefix (list_of l))
        (map (fun x => prefix ++ x) l) (inr tt) /\
  emits (render_file str_repr filename
           (VDict [("approach", VStr a);
                   ("key_features", list_of fs);
                   ("problems", list_of ps)]))
        ((nl ++ filename ++ ":") :: ("   Approach: " ++ a) :: "   Features:"
           :: app (map (fun x => "     ✓ " ++ x) fs)
                  ("   Problems:" :: map (fun x => "     ❌ " ++ x) ps))
        (inr tt) /\
  emits (render_category str_upper str_repr category (list_of l))
        ((nl ++ str_upper category ++ ":") :: map (fun x => "   • " ++ x) l)
        (inr tt) /\
  emits (render_component str_repr component (list_of l))
        (("   " ++ component ++ ":") :: map (fun x => "     → " ++ x) l)
        (inr tt) /\
  emits (render_component str_repr component (VDict [("features", list_of l)]))
        (("   " ++ component ++ ":") :: map (fun x => "     ✓ " ++ x) l)
        (inr tt).
Proof.
  repeat split.
  - apply emits_print_each_strings.
  - pose proof (emits_render_file str_repr filename
                  [("approach", VStr a); ("key_features", list_of fs);
                   ("problems", list_of ps)]
                  (VStr a) (Some (map VStr fs)) (Some (map VStr ps))
                  eq_refl eq_refl eq_refl) as H.
    simpl in H. rewrite !map_map in H. exact H.
  - pose proof (emits_render_category str_upper str_repr category
                  (map VStr l)) as H.
    rewrite map_map in H. exact H.
  - pose proof (emits_render_component_list str_repr component (map VStr l))
      as H.
    rewrite map_map in H. exact H.
  - pose proof (emits_render_component_features str_repr component
                  [("features", list_of l)] (map VStr l) eq_refl) as H.
    rewrite map_map in H. exact H.
Qed.

(** ** The plan loop: bodies it does not recognise *)

Lemma render_component_unrecognised (str_repr : string -> string)
      (component : string) (info : pyval) (k : sink) :
  has_features info = false -> is_list info = false ->
  render_component str_repr component info k = (inr tt, k).
Proof. intros H1 H2. unfold render_component. now rewrite H1, H2. Qed.

Lemma for_each_skip {X : Type} (body : X -> M unit) (pre post : list X)
      (x : X) (k : sink) :
  (forall k', body x k' = (inr tt, k')) ->
  for_each (pre ++ x :: post) body k = for_each (pre ++ post) body k.
Proof.
  intros H. rewrite !for_each_app. apply bind_ext. intros _ k'. simpl.
  unfold bind. now rewrite H.
Qed.

(** C1, as the specification words it, fails: a component whose body is a
    raw number raises nothing, and the component after it is printed. *)
Lemma raw_number_body_is_not_rejected :
  outcome (render_plan upper_ascii repr_plain
             (VDict [("p", VDict [("c", VInt 5); ("d", list_of ["x"])])]))
  = inr tt /\
  lines (render_plan upper_ascii repr_plain
           (VDict [("p", VDict [("c", VInt 5); ("d", list_of ["x"])])]))
  = [nl ++ "P:"; "   d:"; "     → x"].
Proof. split; vm_compute; reflexivity. Qed.

(** C1 (amended). A component of a phase whose body is neither a dictionary
    with the key [features] nor a list (a raw number, say) is not an error:
    the plan loop prints nothing for it, raises nothing, and goes on to the
    components after it as if it were absent. *)
Theorem unrecognised_body_is_skipped (str_repr : string -> string)
        (component : string) (info : pyval) (rest : list (string * pyval))
        (k : sink) :
  has_features info = false -> is_list info = false ->
  render_component str_repr component info k = (inr tt, k) /\
  for_items (VDict ((component, info) :: rest)) (render_component str_repr) k
  = for_items (VDict rest) (render_component str_repr) k.
Proof.
  intros H1 H2. split.
  - now apply render_component_unrecognised.
  - unfold for_items. simpl. rewrite !bind_ret. simpl. unfold bind at 1.
    now rewrite render_component_unrecognised.
Qed.

Lemma unrecognised_body_is_skipped_witness :
  render_component repr_plain "c" (VInt 5) fresh = (inr tt, fresh) /\
  for_items (VDict [("c", VInt 5); ("d", list_of ["x"])])
            (render_component repr_plain) fresh
  = for_items (VDict [("d", list_of ["x"])]) (render_component repr_plain)
              fresh.
Proof.
  apply (unrecognised_body_is_skipped repr_plain "c" (VInt 5)
           [("d", list_of ["x"])] fresh); reflexivity.
Defined.

(** C10. In the plan loop a component whose value is neither a dictionary
    with the key [features] nor a list prints nothing and raises nothing,
    and the whole plan is rendered, on every stream, exactly as the plan
    without that component: the components and the phases before and after
    it are unchanged. *)
Theorem unrecognised_component_changes_nothing
        (str_upper str_repr : string -> string)
        (before after : list (string * pyval)) (phase : string)
        (pre post : list (string * pyval)) (component : string)
        (info : pyval) (k : sink) :
  has_features info = false -> is_list info = false ->
  emits (render_component str_repr component info) [] (inr tt) /\
  render_plan str_upper str_repr
    (VDict (before ++ (phase, VDict (pre ++ (component, info) :: post))
                   :: after)) k
  = render_plan str_upper str_repr
      (VDict (before ++ (phase, VDict (pre ++ post)) :: after)) k.
Proof.
  intros H1 H2. split.
  - intros k'. now apply render_component_unrecognised.
  - unfold render_plan, for_items. simpl. rewrite !bind_ret.
    rewrite !for_each_app. apply bind_ext. intros _ k1. simpl.
    assert (E : forall k', render_phase str_upper str_repr phase
                             (VDict (pre ++ (component, info) :: post)) k'
                           = render_phase str_upper str_repr phase
                               (VDict (pre ++ post)) k').
    { intros k'. unfold render_phase, for_items. apply bind_ext.
      intros _ k2. simpl. rewrite !bind_ret.
      apply (for_each_skip
               (fun e => render_component str_repr (fst e) (snd e))).
      intros k3. now apply render_component_unrecognised. }
    unfold bind. now rewrite E.
Qed.

Lemma unrecognised_component_changes_nothing_witness :
  emits (render_component repr_plain "note" (VStr "later")) [] (inr tt) /\
  render_plan upper_ascii repr_plain
    (VDict ([("phase_0", VDict [("a", list_of ["x"])])]
              ++ ("phase_1", VDict ([("b", list_of ["y"])]
                                      ++ ("note", VStr "later")
                                      :: [("c", list_of ["z"])]))
              :: [("phase_2", VDict [("d", list_of ["w"])])])) fresh
  = render_plan upper_ascii repr_plain
      (VDict ([("phase_0", VDict [("a", list_of ["x"])])]
                ++ ("phase_1", VDict ([("b", list_of ["y"])]
                                        ++ [("c", list_of ["z"])]))
                :: [("phase_2", VDict [("d", list_of ["w"])])])) fresh.
Proof.
  apply (unrecognised_component_changes_nothing upper_ascii repr_plain
           [("phase_0", VDict [("a", list_of ["x"])])]
           [("phase_2", VDict [("d", list_of ["w"])])]
           "phase_1" [("b", list_of ["y"])] [("c", list_of ["z"])]
           "note" (VStr "later") fresh); reflexivity.
Defined.

(** ** The plan loop: depth *)

(** C5, as the specification words it, fails: what is nested below a
    component is not printed one level further in, it is not printed at all.
    Under phase [p] the component [c] holds, besides its [features], a
    section [sub]; and the component [e] holds only a section. *)
Lemma deeper_sections_are_not_rendered :
  lines (render_plan upper_ascii repr_plain
           (VDict [("p", VDict
              [("c", VDict [("features", list_of ["x"]);
                            ("sub", VDict [("deep", list_of ["y"])])]);
               ("e", VDict [("sub", list_of ["z"])])])]))
  = [nl ++ "P:"; "   c:"; "     ✓ x"].
Proof. vm_compute. reflexivity. Qed.

Lemma render_component_dict (str_repr : string -> string)
      (component : string) (d : list (string * pyval)) (k : sink) :
  render_component str_repr component (VDict d) k
  = match lookup "features" d with
    | Some features =>
        (print ("   " ++ component ++ ":") ;;
         print_each str_repr "     ✓ " features) k
    | None => (inr tt, k)
    end.
Proof.
  unfold render_component, has_features, py_getitem, is_list.
  destruct (lookup "features" d) as [f |] eqn:E.
  - rewrite (lookup_existsb _ _ _ E). apply bind_ext. intros _ k'.
    reflexivity.
  - now rewrite (lookup_none_existsb _ _ E).
Qed.

(** C5 (amended). The plan loop has a fixed depth.  The title of a phase is
    printed at the left margin, the title of each of its components with
    exactly three leading spaces and the bullet lines of a component with
    five.  There is no level below: of a dictionary component only the
    entries of its [features] list are printed, at the bullet indentation,
    and whatever else is nested in it is not printed. *)
Theorem plan_depth_is_fixed (str_upper str_repr : string -> string)
        (phase component : string) (comps : list (string * list string))
        (d : list (string * pyval)) (k : sink) :
  emits (render_phase str_upper str_repr phase
           (VDict (map (fun c => (fst c, list_of (snd c))) comps)))
        ((nl ++ replace "_" " " (str_upper phase) ++ ":")
           :: concat (map (fun c => ("   " ++ fst c ++ ":")
                                      :: map (fun x => "     → " ++ x) (snd c))
                          comps))
        (inr tt) /\
  render_component str_repr component (VDict d) k
  = match lookup "features" d with
    | Some features =>
        (print ("   " ++ component ++ ":") ;;
         print_each str_repr "     ✓ " features) k
    | None => (inr tt, k)
    end.
Proof.
  split; [| apply render_component_dict].
  unfold render_phase. apply emits_print_then.
  pose proof (emits_for_items
                (map (fun c => (fst c, list_of (snd c))) comps)
                (render_component str_repr)
                (fun e => lines (render_component str_repr (fst e) (snd e))))
    as H.
  rewrite map_map in H.
  assert (E : forall c : string * list string,
             emits (render_component str_repr (fst c) (list_of (snd c)))
                   (("   " ++ fst c ++ ":")
                      :: map (fun x => "     → " ++ x) (snd c)) (inr tt)).
  { intros c.
    pose proof (emits_render_component_list str_repr (fst c)
                  (map VStr (snd c))) as G.
    now rewrite map_map in G. }
  rewrite (map_ext _ (fun c => ("   " ++ fst c ++ ":")
                                 :: map (fun x => "     → " ++ x) (snd c)))
    in H.
  - apply H. intros e He. apply in_map_iff in He as (c & <- & _). simpl.
    destruct (emits_fresh _ _ _ (E c)) as [-> _]. apply E.
  - intros c. simpl. now destruct (emits_fresh _ _ _ (E c)).
Qed.

(** ** Order *)

Lemma emits_for_items_select (body : string -> pyval -> M unit)
      (secs : list (string * pyval)) (idxs : list nat) :
  (forall c x, regular (body c x)) ->
  (forall e, In e secs -> outcome (body (fst e) (snd e)) = inr tt) ->
  emits (for_items (VDict (select idxs secs)) body)
        (concat (select idxs
                   (map (fun e => lines (body (fst e) (snd e))) secs)))
        (inr tt).
Proof.
  intros R H. rewrite select_map. apply emits_for_items.
  intros e He. apply select_In in He.
  pose proof (regular_emits _ (R (fst e) (snd e))) as E.
  now rewrite (H e He) in E.
Qed.

(** X14. Where no section raises, the loops over [current_files] and over
    [identified_problems] keep the order: when every section is rendered
    without an exception, the output for the sections taken in any order
    [idxs] is the concatenation of their blocks taken in that same order; in
    particular, in the order they were declared. *)
Theorem render_order_preserving (str_upper str_repr : string -> string)
        (files categories : list (string * pyval)) (idxs : list nat) :
  (forall e, In e files ->
             outcome (render_file str_repr (fst e) (snd e)) = inr tt) ->
  (forall e, In e categories ->
             outcome (render_category str_upper str_repr (fst e) (snd e))
             = inr tt) ->
  emits (render_current_files str_repr (VDict (select idxs files)))
        (concat (select idxs
           (map (fun e => lines (render_file str_repr (fst e) (snd e)))
                files)))
        (inr tt) /\
  emits (render_identified_problems str_upper str_repr
           (VDict (select idxs categories)))
        (concat (select idxs
           (map (fun e => lines (render_category str_upper str_repr
                                   (fst e) (snd e)))
                categories)))
        (inr tt) /\
  emits (render_current_files str_repr (VDict files))
        (concat (map (fun e => lines (render_file str_repr (fst e) (snd e)))
                     files))
        (inr tt) /\
  emits (render_identified_problems str_upper str_repr (VDict categories))
        (concat (map (fun e => lines (render_category str_upper str_repr
                                        (fst e) (snd e)))
                     categories))
        (inr tt).
Proof.
  intros Hf Hc.
  pose proof (fun i => emits_for_items_select (render_file str_repr) files i
                         (regular_render_file str_repr) Hf) as F.
  pose proof (fun i => emits_for_items_select
                         (render_category str_upper str_repr) categories i
                         (regular_render_category str_upper str_repr) Hc)
    as C.
  repeat split.
  - apply F.
  - apply C.
  - specialize (F (seq 0 (length files))).
    rewrite select_map, select_seq in F. exact F.
  - specialize (C (seq 0 (length categories))).
    rewrite select_map, select_seq in C. exact C.
Qed.

Lemma render_order_preserving_witness :
  emits (render_current_files repr_plain
           (VDict [("b.js", VDict [("approach", VStr "y");
                                   ("problems", list_of ["q"])]);
                   ("a.js", VDict [("approach", VStr "x");
                                   ("key_features", list_of ["p"])])]))
        [nl ++ "b.js:"; "   Approach: y"; "   Problems:"; "     ❌ q";
         nl ++ "a.js:"; "   Approach: x"; "   Features:"; "     ✓ p"]
        (inr tt) /\
  emits (render_identified_problems upper_ascii repr_plain
           (VDict [("speed", list_of ["s"]); ("design", list_of ["d"])]))
        [nl ++ "SPEED:"; "   • s"; nl ++ "DESIGN:"; "   • d"]
        (inr tt).
Proof.
  pose proof (render_order_preserving upper_ascii repr_plain
                [("a.js", VDict [("approach", VStr "x");
                                 ("key_features", list_of ["p"])]);
                 ("b.js", VDict [("approach", VStr "y");
                                 ("problems", list_of ["q"])])]
                [("design", list_of ["d"]); ("speed", list_of ["s"])]
                [1%nat; 0%nat]) as H.
  destruct H as (H1 & H2 & _).
  - intros e [<- | [<- | []]]; reflexivity.
  - intros e [<- | [<- | []]]; reflexivity.
  - split; [exact H1 | exact H2].
Defined.

(** ** Empty lists *)

(** X15. Empty bullet lists print no bullet line: a file entry that has its
    [approach] and whose [key_features] and [problems] are empty prints its
    title, its approach and the two headings; a category or a plan component
    with an empty list prints its title alone; and a bullet loop over an
    empty list prints nothing. *)
Theorem empty_bullet_list_prints_title_only
        (str_upper str_repr : string -> string)
        (filename category component prefix : string)
        (d : list (string * pyval)) (a : pyval) :
  lookup "approach" d = Some a ->
  lookup "key_features" d = Some (VList []) ->
  lookup "problems" d = Some (VList []) ->
  emits (render_file str_repr filename (VDict d))
        [nl ++ filename ++ ":"; "   Approach: " ++ py_str str_repr a;
         "   Features:"; "   Problems:"]
        (inr tt) /\
  emits (render_category str_upper str_repr category (VList []))
        [nl ++ str_upper category ++ ":"] (inr tt) /\
  emits (render_component str_repr component (VList []))
        ["   " ++ component ++ ":"] (inr tt) /\
  emits (print_each str_repr prefix (VList [])) [] (inr tt).
Proof.
  intros Ha Hf Hp. split; [| split; [| split]].
  - apply (emits_render_file str_repr filename d a (Some []) (Some []));
      assumption.
  - apply (emits_render_category str_upper str_repr category []).
  - apply (emits_render_component_list str_repr component []).
  - apply (emits_print_each str_repr prefix []).
Qed.

Lemma empty_bullet_list_prints_title_only_witness :
  emits (render_file repr_plain "a.js"
           (VDict [("size", VStr "s"); ("approach", VStr "x");
                   ("key_features", VList []); ("problems", VList [])]))
        [nl ++ "a.js:"; "   Approach: x"; "   Features:"; "   Problems:"]
        (inr tt) /\
  emits (render_category upper_ascii repr_plain "speed" (VList []))
        [nl ++ "SPEED:"] (inr tt) /\
  emits (render_component repr_plain "c" (VList [])) ["   c:"] (inr tt) /\
  emits (print_each repr_plain "   • " (VList [])) [] (inr tt).
Proof.
  apply (empty_bullet_list_prints_title_only upper_ascii repr_plain
           "a.js" "speed" "c" "   • "
           [("size", VStr "s"); ("approach", VStr "x");
            ("key_features", VList []); ("problems", VList [])]
           (VStr "x")); reflexivity.
Defined.

(** ** Write failures and the exit status *)

(** A refused write is not caught: it ends the run with [OSError], after the
    lines the stream still accepted and before any other. *)
Lemma write_failure_aborts {A : Type} (m : M A) (k : sink) (n : nat) :
  regular m -> room k = Some n -> (n < length (lines m))%nat ->
  m k = (inl OSError, mkSink (written k ++ firstn n (lines m)) (Some 0%nat)).
Proof.
  intros R Hr Hn. rewrite (regular_emits m R). now apply feed_short.
Qed.

Lemma script_write_failure (str_upper str_repr : string -> string)
      (analysis plan : pyval) (k : sink) (n : nat) :
  room k = Some n ->
  (n < length (lines (script str_upper str_repr analysis plan)))%nat ->
  script str_upper str_repr analysis plan k
  = (inl OSError,
     mkSink (written k
               ++ firstn n (lines (script str_upper str_repr analysis plan)))
            (Some 0%nat)) /\
  exit_status (fst (script str_upper str_repr analysis plan k)) = 1%Z.
Proof.
  intros Hr Hn.
  rewrite (write_failure_aborts _ k n (regular_script _ _ _ _) Hr Hn).
  split; reflexivity.
Qed.

(** [script (1).py] prints its 144 lines and exits with status 0 whenever no
    write is refused. *)
Lemma script_1_exit_status (argv : list string)
      (environ : list (string * string)) (k : sink) :
  completes (run_script_1 argv environ) k ->
  exit_status (fst (run_script_1 argv environ k)) = 0%Z /\
  length (lines (run_script_1 argv environ)) = 144%nat.
Proof.
  intros H. unfold run_script_1 in *.
  destruct (regular_complete_run _ k (regular_script_1 repr_plain) H)
    as [-> _].
  split; vm_compute; reflexivity.
Qed.

(** C8 holds of the loops but not of [script.py] as a program: run on a
    stream that never refuses a write, it exits with status 1. *)
Lemma script_exits_nonzero_without_write_failure :
  room fresh = None /\
  completes (run_script [] []) fresh /\
  exit_status (fst (run_script [] [] fresh)) = 1%Z.
Proof.
  split; [reflexivity |]. split; [| vm_compute; reflexivity].
  unfold completes. vm_compute. discriminate.
Qed.

(** ** The entries of [current_files] *)

(** C9 fails on [script.py]: the third entry of [current_files] has no key
    [approach]; the run prints the two entries before it and the title of
    that one, 32 lines in all, and ends with [KeyError]. *)
Lemma script_raises_key_error :
  (exists current_files details,
      py_getitem live_preview_analysis "current_files" = inr current_files /\
      py_getitem current_files "mas-settings-form-handler.js" = inr details /\
      py_getitem details "approach" = inl (KeyError "approach")) /\
  outcome (run_script [] []) = inl (KeyError "approach") /\
  length (lines (run_script [] [])) = 32%nat /\
  last (lines (run_script [] [])) "" = nl ++ "mas-settings-form-handler.js:".
Proof.
  split.
  - eexists _, _. repeat split; vm_compute; reflexivity.
  - repeat split; vm_compute; reflexivity.
Qed.

(** * Further properties of the two modules *)

(** ** Outcomes and lines of composed statements *)

Lemma outcome_bind {A B : Type} (m : M A) (f : A -> M B) :
  regular m -> (forall a, regular (f a)) ->
  outcome (bind m f)
  = match outcome m with
    | inr a => outcome (f a)
    | inl e => inl e
    end.
Proof.
  intros Rm Rf. pose proof (regular_emits m Rm) as E.
  destruct (outcome m) as [e | a].
  - now destruct (emits_fresh _ _ _ (emits_bind_raise m f _ e E)).
  - pose proof (regular_emits _ (Rf a)) as Ea.
    now destruct (emits_fresh _ _ _ (emits_bind m f _ a _ _ E Ea)).
Qed.

Lemma lines_bind {A B : Type} (m : M A) (f : A -> M B) :
  regular m -> (forall a, regular (f a)) ->
  lines (bind m f)
  = (lines m ++ match outcome m with
                | inr a => lines (f a)
                | inl _ => []
                end)%list.
Proof.
  intros Rm Rf. pose proof (regular_emits m Rm) as E.
  destruct (outcome m) as [e | a].
  - destruct (emits_fresh _ _ _ (emits_bind_raise m f _ e E)) as [-> _].
    now rewrite app_nil_r.
  - pose proof (regular_emits _ (Rf a)) as Ea.
    now destruct (emits_fresh _ _ _ (emits_bind m f _ a _ _ E Ea)).
Qed.

Lemma outcome_for_each {X : Type} (l : list X) (body : X -> M unit) :
  (forall x, regular (body x)) ->
  outcome (for_each l body) = inr tt <->
  (forall x, In x l -> outcome (body x) = inr tt).
Proof.
  intros R. induction l as [| x l IH]; simpl.
  - split; [intros _ y [] | reflexivity].
  - rewrite outcome_bind by (auto using regular_for_each).
    destruct (outcome (body x)) as [e | []] eqn:E.
    + split; [discriminate |]. intros H.
      specialize (H x (or_introl eq_refl)). congruence.
    + rewrite IH. split.
      * intros H y [<- | Hy]; auto.
      * intros H y Hy. apply H. now right.
Qed.

Lemma outcome_for_items (d : list (string * pyval))
      (body : string -> pyval -> M unit) (ok : pyval -> bool) :
  (forall c x, regular (body c x)) ->
  (forall c x, outcome (body c x) = inr tt <-> ok x = true) ->
  outcome (for_items (VDict d) body) = inr tt <->
  forallb (fun e => ok (snd e)) d = true.
Proof.
  intros R H. unfold for_items. simpl.
  change (outcome (for_each d (fun e => body (fst e) (snd e))) = inr tt <->
          forallb (fun e => ok (snd e)) d = true).
  rewrite outcome_for_each by (intros; apply R). rewrite forallb_forall.
  split; intros G e He; apply (H (fst e) (snd e)), G, He.
Qed.

Lemma emits_for_each_abort {X : Type} (body : X -> M unit)
      (block : X -> list string) (pre post : list X) (x : X)
      (Lx : list string) (e : exn) :
  (forall y, In y pre -> emits (body y) (block y) (inr tt)) ->
  emits (body x) Lx (inl e) ->
  emits (for_each (pre ++ x :: post) body)
        (concat (map block pre) ++ Lx) (inl e).
Proof.
  intros Hpre Hx k. rewrite for_each_app. revert k.
  change (emits (for_each pre body ;; for_each (x :: post) body)
                (concat (map block pre) ++ Lx) (inl e)).
  eapply emits_bind.
  - now apply emits_for_each.
  - simpl. now apply emits_bind_raise.
Qed.

Lemma outcome_print (x : string) : outcome (print x) = inr tt.
Proof. reflexivity. Qed.

Lemma outcome_lift {A : Type} (r : result A) : outcome (lift r) = r.
Proof. destruct r; reflexivity. Qed.

Lemma outcome_unit_cases (m : M unit) :
  outcome m = inr tt \/ exists e, outcome m = inl e.
Proof. destruct (outcome m) as [e | []]; eauto. Qed.

Ltac regular_side :=
  solve [ repeat first [ assumption
                       | apply regular_print_each
                       | apply regular_render_component
                       | apply regular_render_file
                       | apply regular_for_items; intros
                       | apply regular_for_in; intros
                       | regular_step
                       | intro ] ].

Ltac outcome_step :=
  first [ rewrite outcome_print
        | rewrite outcome_lift
        | rewrite outcome_bind by regular_side ].

(** ** Which documents the loops get through *)

Section Outcomes.

Variables str_upper str_repr : string -> string.

Lemma outcome_print_each (prefix : string) (v : pyval) :
  outcome (print_each str_repr prefix v)
  = if iterable v then inr tt else inl TypeError.
Proof.
  unfold print_each, for_in. outcome_step. outcome_step.
  assert (G : forall l : list pyval,
             outcome (for_each l (fun x => print (prefix ++ py_str str_repr x)))
             = inr tt).
  { intros l. apply outcome_for_each.
    - intros x. apply regular_print.
    - intros x _. apply outcome_print. }
  destruct v; simpl; auto.
Qed.

Lemma outcome_optional_block (heading prefix key : string)
      (d : list (string * pyval)) :
  outcome (has <- lift (py_contains key (VDict d)) ;;
           (if has then
              print heading ;;
              l <- lift (py_getitem (VDict d) key) ;;
              print_each str_repr prefix l
            else ret tt))
  = if optional_iterable key d then inr tt else inl TypeError.
Proof.
  unfold optional_iterable, py_contains, py_getitem.
  destruct (lookup key d) as [v |] eqn:E.
  - rewrite (lookup_existsb _ _ _ E). simpl.
    change (outcome (print heading ;;
                     l <- lift (inr v) ;; print_each str_repr prefix l)
            = if iterable v then inr tt else inl TypeError).
    repeat outcome_step. apply outcome_print_each.
  - rewrite (lookup_none_existsb _ _ E). reflexivity.
Qed.

Lemma outcome_optional_block_then (heading prefix key : string)
      (d : list (string * pyval)) (rest : M unit) :
  regular rest ->
  outcome (has <- lift (py_contains key (VDict d)) ;;
           (if has then
              print heading ;;
              l <- lift (py_getitem (VDict d) key) ;;
              print_each str_repr prefix l
            else ret tt) ;;
           rest)
  = if optional_iterable key d then outcome rest else inl TypeError.
Proof.
  intros R. unfold optional_iterable, py_contains, py_getitem.
  destruct (lookup key d) as [v |] eqn:E.
  - rewrite (lookup_existsb _ _ _ E). simpl.
    change (outcome ((print heading ;;
                      l <- lift (inr v) ;; print_each str_repr prefix l) ;;
                     rest)
            = if iterable v then outcome rest else inl TypeError).
    repeat outcome_step. rewrite outcome_print_each.
    now destruct (iterable v).
  - rewrite (lookup_none_existsb _ _ E). reflexivity.
Qed.

(** X3. The body of the loop over [current_files] raises nothing exactly on
    the entries that are dictionaries with the key [approach] and whose
    [key_features] and [problems], where present, can be iterated; and the
    loop raises nothing exactly when every entry is such. *)
Theorem render_current_files_succeeds_iff
        (filename : string) (details : pyval)
        (files : list (string * pyval)) :
  (outcome (render_file str_repr filename details) = inr tt <->
   file_ok details = true) /\
  (outcome (render_current_files str_repr (VDict files)) = inr tt <->
   forallb (fun e => file_ok (snd e)) files = true).
Proof.
  assert (G : forall f x, outcome (render_file str_repr f x) = inr tt <->
                          file_ok x = true).
  { intros f x. unfold render_file.
    destruct x as [s | n | l | d];
      try (split; [vm_compute; discriminate | discriminate]).
    rewrite outcome_bind by regular_side. rewrite outcome_print.
    unfold file_ok, py_getitem at 1.
    destruct (lookup "approach" d) as [a |].
    - change (outcome
                (approach <- lift (inr a) ;;
                 print ("   Approach: " ++ py_str str_repr approach) ;;
                 has <- lift (py_contains "key_features" (VDict d)) ;;
                 (if has then
                    print "   Features:" ;;
                    l <- lift (py_getitem (VDict d) "key_features") ;;
                    print_each str_repr "     ✓ " l
                  else ret tt) ;;
                 has <- lift (py_contains "problems" (VDict d)) ;;
                 (if has then
                    print "   Problems:" ;;
                    l <- lift (py_getitem (VDict d) "problems") ;;
                    print_each str_repr "     ❌ " l
                  else ret tt)) = inr tt <->
              true && optional_iterable "key_features" d
              && optional_iterable "problems" d = true).
      do 4 outcome_step.
      rewrite outcome_optional_block_then by regular_side.
      rewrite outcome_optional_block. simpl.
      destruct (optional_iterable "key_features" d),
               (optional_iterable "problems" d); simpl;
        split; congruence.
    - split; [vm_compute; discriminate | discriminate]. }
  split; [apply G |].
  unfold render_current_files. apply outcome_for_items; auto.
  apply regular_render_file.
Qed.

End Outcomes.

Section PlanOutcomes.

Variables str_upper str_repr : string -> string.

(** X4. The loop over [identified_problems] raises nothing exactly when the
    value of every category can be iterated (it is not a number), whatever
    its entries are; on a number it ends with [TypeError] after the title of
    that category. *)
Theorem render_identified_problems_succeeds_iff
        (category : string) (n : Z) (categories : list (string * pyval)) :
  (outcome (render_identified_problems str_upper str_repr (VDict categories))
   = inr tt <->
   forallb (fun e => iterable (snd e)) categories = true) /\
  emits (render_category str_upper str_repr category (VInt n))
        [nl ++ str_upper category ++ ":"] (inl TypeError).
Proof.
  split.
  - unfold render_identified_problems. apply outcome_for_items.
    + apply regular_render_category.
    + intros c x. unfold render_category. do 2 outcome_step.
      rewrite outcome_print_each. destruct (iterable x); split; congruence.
  - unfold render_category. apply emits_print_then.
    apply emits_print_each_fails.
Qed.

Lemma outcome_render_component (component : string) (info : pyval) :
  outcome (render_component str_repr component info) = inr tt <->
  component_ok info = true.
Proof.
  destruct info as [s | n | l | d]; try (split; reflexivity).
  - unfold render_component, component_ok. simpl. do 2 outcome_step.
    rewrite outcome_print_each. split; reflexivity.
  - unfold outcome. rewrite render_component_dict.
    unfold component_ok, optional_iterable.
    destruct (lookup "features" d) as [f |]; [| split; reflexivity].
    change (outcome (print ("   " ++ component ++ ":") ;;
                     print_each str_repr "     ✓ " f) = inr tt <->
            iterable f = true).
    do 2 outcome_step. rewrite outcome_print_each.
    destruct (iterable f); split; congruence.
Qed.

(** X5. The plan loop raises nothing exactly when every phase is a
    dictionary and, in every component that is a dictionary with the key
    [features], the value of that key can be iterated.  A phase that is not
    a dictionary ends the run with [AttributeError] after its title; a
    [features] that is a number ends it with [TypeError] after the title of
    its component. *)
Theorem render_plan_succeeds_iff
        (phase component : string) (details : pyval) (n : Z)
        (d : list (string * pyval)) (phases : list (string * pyval)) :
  (outcome (render_plan str_upper str_repr (VDict phases)) = inr tt <->
   forallb (fun e => phase_ok (snd e)) phases = true) /\
  (py_items details = inl AttributeError ->
   emits (render_phase str_upper str_repr phase details)
         [nl ++ replace "_" " " (str_upper phase) ++ ":"]
         (inl AttributeError)) /\
  (lookup "features" d = Some (VInt n) ->
   emits (render_component str_repr component (VDict d))
         ["   " ++ component ++ ":"] (inl TypeError)).
Proof.
  split; [| split].
  - unfold render_plan. apply outcome_for_items.
    + apply regular_render_phase.
    + intros p x. unfold render_phase. do 2 outcome_step.
      destruct x as [s | i | l | comps];
        try (split; [vm_compute; discriminate | discriminate]).
      unfold phase_ok. apply outcome_for_items.
      * apply regular_render_component.
      * apply outcome_render_component.
  - intros H. unfold render_phase, for_items. rewrite H.
    apply emits_print_then. intros k. reflexivity.
  - intros H. unfold render_component, has_features, py_getitem.
    rewrite (lookup_existsb _ _ _ H), H.
    apply emits_print_then, emits_ret_then, emits_print_each_fails.
Qed.

End PlanOutcomes.

Lemma render_plan_succeeds_iff_witness :
  emits (render_phase upper_ascii repr_plain "phase_1" (list_of ["x"]))
        [nl ++ "PHASE 1:"] (inl AttributeError) /\
  emits (render_component repr_plain "engine"
           (VDict [("file", VStr "a.js"); ("features", VInt 3)]))
        ["   engine:"] (inl TypeError).
Proof.
  destruct (render_plan_succeeds_iff upper_ascii repr_plain "phase_1" "engine"
              (list_of ["x"]) 3
              [("file", VStr "a.js"); ("features", VInt 3)] [])
    as (_ & H1 & H2).
  split; [apply H1 | apply H2]; reflexivity.
Defined.

(** ** The first entry that raises ends the loop *)

(** X6. When an entry of [current_files] has no key [approach], the loop
    prints the blocks of the entries before it and the title of that entry,
    ends with [KeyError], and prints nothing of the entries after it. *)
Theorem missing_approach_aborts (str_repr : string -> string)
        (pre post : list (string * pyval)) (filename : string)
        (d : list (string * pyval)) :
  (forall e, In e pre ->
             outcome (render_file str_repr (fst e) (snd e)) = inr tt) ->
  lookup "approach" d = None ->
  emits (render_current_files str_repr
           (VDict (pre ++ (filename, VDict d) :: post)))
        (concat (map (fun e => lines (render_file str_repr (fst e) (snd e)))
                     pre)
           ++ [nl ++ filename ++ ":"])
        (inl (KeyError "approach")).
Proof.
  intros Hpre Hd. unfold render_current_files, for_items. simpl.
  intros k. rewrite bind_ret. revert k.
  apply (emits_for_each_abort
           (fun e => render_file str_repr (fst e) (snd e))
           (fun e => lines (render_file str_repr (fst e) (snd e)))).
  - intros e He.
    pose proof (regular_emits _ (regular_render_file str_repr (fst e) (snd e)))
      as E.
    now rewrite (Hpre e He) in E.
  - simpl. unfold render_file, py_getitem. rewrite Hd.
    apply emits_print_then. intros k. reflexivity.
Qed.

Lemma missing_approach_aborts_witness :
  emits (render_current_files repr_plain
           (VDict ([("a.js", VDict [("approach", VStr "x")])]
                     ++ ("b.js", VDict [("size", VStr "s");
                                        ("problems", list_of ["p"])])
                     :: [("c.js", VDict [("approach", VStr "z")])])))
        [nl ++ "a.js:"; "   Approach: x"; nl ++ "b.js:"]
        (inl (KeyError "approach")).
Proof.
  apply (missing_approach_aborts repr_plain
           [("a.js", VDict [("approach", VStr "x")])]
           [("c.js", VDict [("approach", VStr "z")])]
           "b.js" [("size", VStr "s"); ("problems", list_of ["p"])]).
  - intros e [<- | []]. reflexivity.
  - reflexivity.
Defined.

(** ** Numbered lists *)

Lemma length_enumerate {X : Type} (l : list X) (start : Z) :
  length (enumerate l start) = length l.
Proof.
  revert start. induction l as [| x l IH]; intros start; simpl;
    [reflexivity | now rewrite IH].
Qed.

Lemma nth_error_enumerate {X : Type} (l : list X) (start : Z) (i : nat) :
  nth_error (enumerate l start) i
  = option_map (fun x => ((start + Z.of_nat i)%Z, x)) (nth_error l i).
Proof.
  revert start i. induction l as [| x l IH]; intros start [| i]; simpl;
    try reflexivity.
  - now rewrite Z.add_0_r.
  - rewrite IH. destruct (nth_error l i); simpl; [| reflexivity].
    do 2 f_equal. lia.
Qed.

Lemma emits_for_each_print {X : Type} (l : list X) (line : X -> string) :
  emits (for_each l (fun x => print (line x))) (map line l) (inr tt).
Proof.
  rewrite <- concat_map_singleton. apply emits_for_each.
  intros x _. apply emits_print.
Qed.

Lemma length_str_mul (s : string) (n : nat) :
  String.length (str_mul s n) = (n * String.length s)%nat.
Proof.
  induction n as [| n IH]; simpl; [reflexivity |].
  now rewrite length_append, IH.
Qed.

Lemma length_format_d (width : nat) (n : Z) :
  String.length (format_d width n)
  = Nat.max width (String.length (str_of_int n)).
Proof.
  unfold format_d. rewrite length_append, length_str_mul. simpl. lia.
Qed.

Lemma length_str_of_int_small (n : Z) :
  (0 <= n < 100)%Z -> (String.length (str_of_int n) <= 2)%nat.
Proof.
  intros H.
  assert (G : forallb (fun k => String.length (str_of_int (Z.of_nat k)) <=? 2)%nat
                      (seq 0 100) = true) by (vm_compute; reflexivity).
  rewrite forallb_forall in G. specialize (G (Z.to_nat n)).
  rewrite Z2Nat.id in G by lia. apply Nat.leb_le, G, in_seq. lia.
Qed.

Section Numbered.

Variable str_repr : string -> string.

Lemma emits_render_numbered (l : list pyval) :
  emits (render_numbered str_repr (VList l))
        (map (fun ix => "   " ++ str_of_int (fst ix) ++ ". "
                              ++ py_str str_repr (snd ix))
             (enumerate l 1))
        (inr tt).
Proof.
  unfold render_numbered. simpl. apply emits_ret_then.
  apply (emits_for_each_print (enumerate l 1)).
Qed.

Lemma emits_render_critical_problems (l : list pyval) :
  emits (render_critical_problems str_repr (VList l))
        (map (fun ix => format_d 2 (fst ix) ++ ". " ++ py_str str_repr (snd ix))
             (enumerate l 1))
        (inr tt).
Proof.
  unfold render_critical_problems. simpl. apply emits_ret_then.
  apply (emits_for_each_print (enumerate l 1)).
Qed.

(** X7. The numbered loops ([critical_issues], [action_items], [actions])
    print one line per entry and number the entries from 1 in list order:
    the line of the entry at position [i] (counted from 0) carries the
    decimal of [i + 1]. *)
Theorem numbered_lines (l : list pyval) (i : nat) (x : pyval) :
  nth_error l i = Some x ->
  outcome (render_numbered str_repr (VList l)) = inr tt /\
  length (lines (render_numbered str_repr (VList l))) = length l /\
  nth_error (lines (render_numbered str_repr (VList l))) i
  = Some ("   " ++ str_of_int (Z.of_nat i + 1) ++ ". " ++ py_str str_repr x).
Proof.
  intros H.
  destruct (emits_fresh _ _ _ (emits_render_numbered l)) as [-> ->].
  split; [reflexivity |]. split.
  - now rewrite length_map, length_enumerate.
  - rewrite nth_error_map, nth_error_enumerate, H. simpl.
    now rewrite Z.add_comm.
Qed.

(** X8. The loop over [critical_problems] right-aligns the number in two
    columns: for a list of fewer than 100 entries every line starts with a
    two-character number (a space and a digit, or two digits) followed by
    a dot, a space and the entry, so the entries start in one column; and
    [format_d] never cuts a number that is wider than its field. *)
Theorem critical_problem_lines (l : list pyval) (i : nat) (x : pyval)
        (width : nat) (n : Z) :
  nth_error l i = Some x -> (length l < 100)%nat ->
  nth_error (lines (render_critical_problems str_repr (VList l))) i
  = Some (format_d 2 (Z.of_nat i + 1) ++ ". " ++ py_str str_repr x) /\
  String.length (format_d 2 (Z.of_nat i + 1)) = 2%nat /\
  String.length (format_d width n)
  = Nat.max width (String.length (str_of_int n)).
Proof.
  intros H Hl.
  destruct (emits_fresh _ _ _ (emits_render_critical_problems l)) as [-> _].
  split; [| split].
  - rewrite nth_error_map, nth_error_enumerate, H. simpl.
    now rewrite Z.add_comm.
  - assert (Hi : (i < length l)%nat)
      by (apply nth_error_Some; congruence).
    rewrite length_format_d.
    pose proof (length_str_of_int_small (Z.of_nat i + 1)). lia.
  - apply length_format_d.
Qed.

End Numbered.

Lemma numbered_lines_witness :
  outcome (render_numbered repr_plain action_items) = inr tt /\
  length (lines (render_numbered repr_plain action_items)) = 6%nat /\
  nth_error (lines (render_numbered repr_plain action_items)) 2
  = Some "   3. Add comprehensive error handling".
Proof.
  apply (numbered_lines repr_plain
           (map VStr ["Create unified live preview engine";
                      "Implement CSS Variables approach with AJAX fallback";
                      "Add comprehensive error handling";
                      "Create performance monitoring dashboard";
                      "Add visual feedback for preview states";
                      "Implement proper batching and debouncing"])
           2 (VStr "Add comprehensive error handling")).
  reflexivity.
Defined.

Lemma critical_problem_lines_witness :
  nth_error (lines (render_critical_problems repr_plain
                      (list_of ["a"; "b"; "c"]))) 1
  = Some " 2. b" /\
  String.length (format_d 2 2) = 2%nat /\
  String.length (format_d 2 1234) = 4%nat.
Proof.
  apply (critical_problem_lines repr_plain (map VStr ["a"; "b"; "c"])
           1 (VStr "b") 2 1234).
  - reflexivity.
  - simpl. lia.
Defined.

(** ** Titles of phases *)

Lemma length_replace (old new : ascii) (s : string) :
  String.length (replace old new s) = String.length s.
Proof. induction s as [| c s IH]; simpl; congruence. Qed.

Lemma get_replace (old new : ascii) (s : string) (i : nat) :
  get i (replace old new s)
  = option_map (fun c => if Ascii.eqb c old then new else c) (get i s).
Proof.
  revert i. induction s as [| c s IH]; intros [| i]; simpl; auto.
Qed.

(** X9. The title of a phase is the first line the body of the plan loop
    prints, whatever the value of the phase is (it is printed before that
    value is looked at): a newline, the upper-cased key with every
    underscore turned into a space and nothing else changed, and a colon.
    No underscore is left in it and its length is that of the key as
    upper-cased. *)
Theorem phase_title_line (str_upper str_repr : string -> string)
        (phase : string) (details : pyval) (i : nat) :
  hd_error (lines (render_phase str_upper str_repr phase details))
  = Some (nl ++ replace "_" " " (str_upper phase) ++ ":") /\
  String.length (replace "_" " " (str_upper phase))
  = String.length (str_upper phase) /\
  get i (replace "_" " " (str_upper phase)) <> Some "_"%char /\
  (get i (str_upper phase) <> Some "_"%char ->
   get i (replace "_" " " (str_upper phase)) = get i (str_upper phase)).
Proof.
  split; [| split; [| split]].
  - unfold render_phase. rewrite lines_bind by regular_side. reflexivity.
  - apply length_replace.
  - rewrite get_replace. destruct (get i (str_upper phase)) as [c |]; simpl;
      [| discriminate].
    destruct (Ascii.eqb_spec c "_") as [E | E];
      [intros H; now inversion H | congruence].
  - intros H. rewrite get_replace.
    destruct (get i (str_upper phase)) as [c |]; simpl; [| reflexivity].
    destruct (Ascii.eqb_spec c "_"); [congruence | reflexivity].
Qed.

Lemma phase_title_line_witness :
  get 6 (replace "_" " " (upper_ascii "phase_1_immediate"))
  = get 6 (upper_ascii "phase_1_immediate").
Proof.
  apply (phase_title_line upper_ascii repr_plain "phase_1_immediate"
           (VInt 0) 6).
  vm_compute. discriminate.
Defined.

(** ** A string where a list is expected *)

Lemma concat_cons (x : string) (l : list string) :
  String.concat "" (x :: l) = x ++ String.concat "" l.
Proof.
  destruct l as [| y l]; simpl; [| reflexivity].
  induction x as [| c x IH]; simpl; congruence.
Qed.

Lemma chars_nil (s : string) : chars s = [] -> s = "".
Proof.
  destruct s as [| c r]; [reflexivity |]. simpl.
  destruct (starts_with_continuation r); [| discriminate].
  destruct (chars r); discriminate.
Qed.

Lemma concat_chars (s : string) : String.concat "" (chars s) = s.
Proof.
  induction s as [| c r IH]; [reflexivity |]. simpl.
  destruct (starts_with_continuation r).
  - destruct (chars r) as [| h t] eqn:E.
    + apply chars_nil in E. now subst r.
    + rewrite concat_cons in *. simpl. now rewrite IH.
  - rewrite concat_cons. simpl. now rewrite IH.
Qed.

Lemma chars_nonempty (s : string) : Forall (fun c => c <> "") (chars s).
Proof.
  induction s as [| c r IH]; simpl; [constructor |].
  destruct (starts_with_continuation r).
  - destruct (chars r) as [| h t]; constructor; try discriminate.
    + constructor.
    + now inversion IH.
  - constructor; [discriminate | exact IH].
Qed.

Lemma chars_ascii (s : string) :
  Forall (fun c => is_continuation c = false) (list_ascii_of_string s) ->
  chars s = map (fun c => String c "") (list_ascii_of_string s).
Proof.
  induction s as [| c r IH]; simpl; intros H; [reflexivity |].
  inversion H as [| ? ? Hc Hr]; subst.
  assert (E : starts_with_continuation r = false).
  { destruct r as [| c' r']; [reflexivity |]. simpl in *. now inversion Hr. }
  rewrite E. f_equal. now apply IH.
Qed.

(** X10. When the value of a bullet list is a string instead of a list, the
    loop raises nothing and prints one bullet line per character of the
    string: the entries are non-empty, put together they give the string
    back, and for a string without multi-byte characters there is one line
    per byte. *)
Theorem string_as_bullet_list (str_repr : string -> string)
        (prefix s : string) :
  emits (print_each str_repr prefix (VStr s))
        (map (fun c => prefix ++ c) (chars s)) (inr tt) /\
  String.concat "" (chars s) = s /\
  Forall (fun c => c <> "") (chars s) /\
  (Forall (fun c => is_continuation c = false) (list_ascii_of_string s) ->
   length (chars s) = String.length s).
Proof.
  split; [| split; [| split]].
  - intros k. unfold print_each, for_in. simpl. rewrite bind_ret.
    pose proof (emits_for_each_print (map VStr (chars s))
                  (fun x => prefix ++ py_str str_repr x)) as H.
    rewrite map_map in H. apply H.
  - apply concat_chars.
  - apply chars_nonempty.
  - intros H. rewrite (chars_ascii s H), length_map.
    clear H. induction s as [| c r IH]; simpl; congruence.
Qed.

Lemma string_as_bullet_list_witness :
  length (chars "fast") = String.length "fast".
Proof.
  apply (string_as_bullet_list repr_plain "   • " "fast").
  repeat constructor.
Defined.

(** ** The layout of the report of [script.py] *)

Section Layout.

Variables str_upper str_repr : string -> string.

Ltac regular_tail :=
  repeat first
    [ apply regular_print
    | apply regular_render_improvements
    | apply regular_render_numbered
    | apply regular_bind; [| intros] ].

Lemma regular_render_current_files v :
  regular (render_current_files str_repr v).
Proof. apply regular_for_items, regular_render_file. Qed.

Lemma regular_render_identified_problems v :
  regular (render_identified_problems str_upper str_repr v).
Proof. apply regular_for_items, regular_render_category. Qed.

Lemma regular_render_plan v : regular (render_plan str_upper str_repr v).
Proof. apply regular_for_items, regular_render_phase. Qed.

Lemma emits_part (m : M unit) (r : result unit) :
  regular m -> outcome m = r -> emits m (lines m) r.
Proof. intros R <-. now apply regular_emits. Qed.

(** X11. When the three parts that depend on the dictionaries raise nothing,
    the report of [script.py] is: its two opening lines, the block of
    [current_files], the heading of the problems, the block of
    [identified_problems], the heading of the plan, the block of the plan,
    and then 38 closing lines that do not depend on the dictionaries; the
    run ends normally. *)
Theorem script_layout (a : list (string * pyval))
        (current_files identified_problems plan : pyval) :
  lookup "current_files" a = Some current_files ->
  lookup "identified_problems" a = Some identified_problems ->
  outcome (render_current_files str_repr current_files) = inr tt ->
  outcome (render_identified_problems str_upper str_repr identified_problems)
  = inr tt ->
  outcome (render_plan str_upper str_repr plan) = inr tt ->
  emits (script str_upper str_repr (VDict a) plan)
        (("=== ANALIZA SYSTEMU LIVE PREVIEW ===" ++ nl)
           :: "📁 AKTUALNE PLIKI:"
           :: app (lines (render_current_files str_repr current_files))
             ((nl ++ "🚨 GŁÓWNE PROBLEMY:")
                :: app (lines (render_identified_problems str_upper str_repr
                                 identified_problems))
                  ((nl ++ "🚀 PLAN MODERNIZACJI:")
                     :: app (lines (render_plan str_upper str_repr plan))
                            report_tail)))
        (inr tt) /\
  length report_tail = 38%nat.
Proof.
  intros Hcf Hip Ocf Oip Opl. split; [| vm_compute; reflexivity].
  unfold script, py_getitem. rewrite Hcf, Hip.
  apply emits_print_then, emits_print_then, emits_ret_then.
  eapply emits_bind;
    [apply emits_part;
     [apply regular_render_current_files | exact Ocf] |].
  apply emits_print_then, emits_ret_then.
  eapply emits_bind;
    [apply emits_part;
     [apply regular_render_identified_problems | exact Oip] |].
  apply emits_print_then.
  eapply emits_bind;
    [apply emits_part; [apply regular_render_plan | exact Opl] |].
  match goal with
  | |- emits ?T _ _ =>
      assert (R : regular T) by regular_tail;
      pose proof (regular_emits T R) as E
  end.
  exact E.
Qed.

End Layout.

Lemma script_layout_witness :
  emits (script upper_ascii repr_plain
           (VDict [("current_files",
                    VDict [("a.js", VDict [("approach", VStr "x")])]);
                   ("identified_problems",
                    VDict [("speed", list_of ["s"])])])
           (VDict [("phase_1", VDict [("c", list_of ["i"])])]))
        (("=== ANALIZA SYSTEMU LIVE PREVIEW ===" ++ nl)
           :: "📁 AKTUALNE PLIKI:"
           :: (nl ++ "a.js:") :: "   Approach: x"
           :: (nl ++ "🚨 GŁÓWNE PROBLEMY:")
           :: (nl ++ "SPEED:") :: "   • s"
           :: (nl ++ "🚀 PLAN MODERNIZACJI:")
           :: (nl ++ "PHASE 1:") :: "   c:" :: "     → i"
           :: report_tail)
        (inr tt) /\
  length report_tail = 38%nat.
Proof.
  apply (script_layout upper_ascii repr_plain
           [("current_files",
             VDict [("a.js", VDict [("approach", VStr "x")])]);
            ("identified_problems", VDict [("speed", list_of ["s"])])]
           (VDict [("a.js", VDict [("approach", VStr "x")])])
           (VDict [("speed", list_of ["s"])])
           (VDict [("phase_1", VDict [("c", list_of ["i"])])]));
    reflexivity.
Defined.

Section EarlyStops.

Variables str_upper str_repr : string -> string.

(** X12. Where [script.py] stops early.  Without the key [current_files]
    the run ends with [KeyError] after its two opening lines.  When the
    block of [current_files] raises, that exception ends the run after the
    lines of the block printed so far: the problems, the plan and the
    closing lines are not printed.  Without the key [identified_problems]
    the heading of the problems is still printed, then the run ends with
    [KeyError]. *)
Theorem script_stops_early (a : list (string * pyval))
        (current_files plan : pyval) (e : exn) :
  (lookup "current_files" a = None ->
   emits (script str_upper str_repr (VDict a) plan)
         ["=== ANALIZA SYSTEMU LIVE PREVIEW ===" ++ nl; "📁 AKTUALNE PLIKI:"]
         (inl (KeyError "current_files"))) /\
  (lookup "current_files" a = Some current_files ->
   outcome (render_current_files str_repr current_files) = inl e ->
   emits (script str_upper str_repr (VDict a) plan)
         (("=== ANALIZA SYSTEMU LIVE PREVIEW ===" ++ nl)
            :: "📁 AKTUALNE PLIKI:"
            :: lines (render_current_files str_repr current_files))
         (inl e)) /\
  (lookup "current_files" a = Some current_files ->
   outcome (render_current_files str_repr current_files) = inr tt ->
   lookup "identified_problems" a = None ->
   emits (script str_upper str_repr (VDict a) plan)
         (("=== ANALIZA SYSTEMU LIVE PREVIEW ===" ++ nl)
            :: "📁 AKTUALNE PLIKI:"
            :: app (lines (render_current_files str_repr current_files))
                   [nl ++ "🚨 GŁÓWNE PROBLEMY:"])
         (inl (KeyError "identified_problems"))).
Proof.
  split; [| split].
  - intros H. unfold script, py_getitem. rewrite H.
    apply emits_print_then, emits_print_then. intros k. reflexivity.
  - intros H O. unfold script, py_getitem. rewrite H.
    apply emits_print_then, emits_print_then, emits_ret_then.
    apply emits_bind_raise, emits_part;
      [apply regular_render_current_files | exact O].
  - intros H O Hip. unfold script, py_getitem. rewrite H, Hip.
    apply emits_print_then, emits_print_then, emits_ret_then.
    eapply emits_bind;
      [apply emits_part; [apply regular_render_current_files | exact O] |].
    apply emits_print_then. intros k. reflexivity.
Qed.

End EarlyStops.

Lemma script_stops_early_witness :
  emits (script upper_ascii repr_plain (VDict []) modernization_plan)
        ["=== ANALIZA SYSTEMU LIVE PREVIEW ===" ++ nl; "📁 AKTUALNE PLIKI:"]
        (inl (KeyError "current_files")) /\
  emits (script upper_ascii repr_plain
           (VDict [("current_files", VDict [("a.js", VInt 1)])])
           modernization_plan)
        ["=== ANALIZA SYSTEMU LIVE PREVIEW ===" ++ nl; "📁 AKTUALNE PLIKI:";
         nl ++ "a.js:"]
        (inl TypeError) /\
  emits (script upper_ascii repr_plain
           (VDict [("current_files", VDict [])])
           modernization_plan)
        ["=== ANALIZA SYSTEMU LIVE PREVIEW ===" ++ nl; "📁 AKTUALNE PLIKI:";
         nl ++ "🚨 GŁÓWNE PROBLEMY:"]
        (inl (KeyError "identified_problems")).
Proof.
  split; [| split].
  - apply (proj1 (script_stops_early upper_ascii repr_plain []
                    (VDict []) modernization_plan TypeError)).
    reflexivity.
  - apply (proj1 (proj2 (script_stops_early upper_ascii repr_plain
                           [("current_files", VDict [("a.js", VInt 1)])]
                           (VDict [("a.js", VInt 1)])
                           modernization_plan TypeError)));
      reflexivity.
  - apply (proj2 (proj2 (script_stops_early upper_ascii repr_plain
                           [("current_files", VDict [])]
                           (VDict []) modernization_plan TypeError)));
      reflexivity.
Defined.

(** ** The stream *)

Lemma regular_appends {A : Type} (m : M A) (k : sink) :
  regular m ->
  exists n, written (snd (m k)) = (written k ++ firstn n (lines m))%list.
Proof.
  intros R. rewrite (regular_emits m R).
  destruct (room k) as [r |] eqn:Hr.
  - destruct (le_lt_dec (length (lines m)) r) as [H | H].
    + exists (length (lines m)).
      rewrite (feed_enough _ _ _ r) by assumption. simpl.
      now rewrite firstn_all.
    + exists r. now rewrite (feed_short _ _ _ r) by assumption.
  - exists (length (lines m)). rewrite feed_unlimited by assumption. simpl.
    now rewrite firstn_all.
Qed.

(** X13. Neither program touches what the stream already holds: whatever
    the stream and the dictionaries, after the run the stream holds what it
    held before followed by an initial part of the lines of the report, in
    their order. *)
Theorem stream_only_grows (str_upper str_repr : string -> string)
        (analysis plan : pyval) (argv : list string)
        (environ : list (string * string)) (k : sink) :
  (exists n,
      written (snd (script str_upper str_repr analysis plan k))
      = (written k
           ++ firstn n (lines (script str_upper str_repr analysis plan)))%list)
  /\
  (exists n,
      written (snd (run_script_1 argv environ k))
      = (written k ++ firstn n (lines (run_script_1 argv environ)))%list).
Proof.
  split.
  - apply regular_appends, regular_script.
  - unfold run_script_1. apply regular_appends, regular_script_1.
Qed.

(** X1. A refused write ends [script.py], whatever its dictionaries, with
    [OSError] right there: the stream has received exactly the lines it
    accepted, no line after the refused one is written, and the exit status
    is 1. *)
Theorem script_write_failure_aborts (str_upper str_repr : string -> string)
        (analysis plan : pyval) (k : sink) (n : nat) :
  room k = Some n ->
  (n < length (lines (script str_upper str_repr analysis plan)))%nat ->
  script str_upper str_repr analysis plan k
  = (inl OSError,
     mkSink (written k
               ++ firstn n (lines (script str_upper str_repr analysis plan)))
            (Some 0%nat)) /\
  exit_status (fst (script str_upper str_repr analysis plan k)) = 1%Z.
Proof.
  intros Hr Hn.
  rewrite (write_failure_aborts _ k n
             (regular_script str_upper str_repr analysis plan) Hr Hn).
  split; reflexivity.
Qed.

Lemma script_write_failure_aborts_witness :
  script upper_ascii repr_plain live_preview_analysis modernization_plan
         (mkSink ["earlier"] (Some 2%nat))
  = (inl OSError,
     mkSink ["earlier"; "=== ANALIZA SYSTEMU LIVE PREVIEW ===" ++ nl;
             "📁 AKTUALNE PLIKI:"] (Some 0%nat)) /\
  exit_status (fst (script upper_ascii repr_plain live_preview_analysis
                      modernization_plan (mkSink ["earlier"] (Some 2%nat))))
  = 1%Z.
Proof.
  apply (script_write_failure_aborts upper_ascii repr_plain
           live_preview_analysis modernization_plan
           (mkSink ["earlier"] (Some 2%nat)) 2).
  - reflexivity.
  - vm_compute. lia.
Defined.

Lemma render_current_files_succeeds_iff_witness :
  outcome (render_file repr_plain "a.js"
             (VDict [("size", VStr "s"); ("approach", VStr "x");
                     ("problems", VStr "slow")])) = inr tt /\
  forallb (fun e => file_ok (snd e))
          [("a.js", VDict [("approach", VStr "x")]);
           ("b.js", VDict [("size", VStr "s")])] <> true.
Proof.
  split.
  - apply (proj1 (render_current_files_succeeds_iff repr_plain "a.js"
                    (VDict [("size", VStr "s"); ("approach", VStr "x");
                            ("problems", VStr "slow")]) [])).
    reflexivity.
  - intros H.
    apply (proj2 (render_current_files_succeeds_iff repr_plain "a.js"
                    (VInt 0)
                    [("a.js", VDict [("approach", VStr "x")]);
                     ("b.js", VDict [("size", VStr "s")])])) in H.
    vm_compute in H. discriminate H.
Defined.

Lemma render_identified_problems_succeeds_iff_witness :
  outcome (render_identified_problems upper_ascii repr_plain
             (VDict [("speed", VList [VStr "slow"; VInt 3]);
                     ("design", VStr "ok")])) = inr tt.
Proof.
  apply (proj1 (render_identified_problems_succeeds_iff upper_ascii repr_plain
                  "speed" 0
                  [("speed", VList [VStr "slow"; VInt 3]);
                   ("design", VStr "ok")])).
  reflexivity.
Defined.

(** ** The loop over [current_files] on entries without [approach] *)

(** C6 fails on [script.py]'s own [current_files]: its third and fourth
    entries have no key [approach], so each of them prints its title and
    raises.  In the declared order the loop prints 30 lines (two whole
    blocks and a title) before the [KeyError]; with the entries taken in the
    order 2, 0, 1, 3 it prints one line, where the blocks of the entries in
    that order hold 31: the output blocks do not follow the permutation. *)
Lemma current_files_order_is_not_preserved :
  outcome (render_current_files repr_plain (VDict builtin_current_files))
  = inl (KeyError "approach") /\
  length (lines (render_current_files repr_plain
                   (VDict builtin_current_files))) = 30%nat /\
  outcome (render_current_files repr_plain
             (VDict (select [2; 0; 1; 3]%nat builtin_current_files)))
  = inl (KeyError "approach") /\
  lines (render_current_files repr_plain
           (VDict (select [2; 0; 1; 3]%nat builtin_current_files)))
  = [nl ++ "mas-settings-form-handler.js:"] /\
  length (concat (select [2; 0; 1; 3]%nat
                    (map (fun e => lines (render_file repr_plain
                                            (fst e) (snd e)))
                         builtin_current_files))) = 31%nat.
Proof. repeat split; vm_compute; reflexivity. Qed.

(** C7 fails in the loop over [current_files]: an entry whose bullet lists
    are empty, or that is itself empty, is not accepted unless it has the
    key [approach]; the loop prints its title and ends with [KeyError]
    (with [TypeError] when the entry is an empty list). *)
Lemma empty_section_without_approach_is_rejected :
  emits (render_file repr_plain "a.js"
           (VDict [("key_features", VList []); ("problems", VList [])]))
        [nl ++ "a.js:"] (inl (KeyError "approach")) /\
  emits (render_file repr_plain "a.js" (VDict []))
        [nl ++ "a.js:"] (inl (KeyError "approach")) /\
  emits (render_file repr_plain "a.js" (VList []))
        [nl ++ "a.js:"] (inl TypeError).
Proof.
  split; [| split]; unfold render_file; apply emits_print_then;
    intros k; reflexivity.
Qed.
